(** * Hacker News newsletter agent: the retrieval layer and the article tool

    A shallow embedding of [src/hackernews-api.ts] (the Hacker News, Algolia
    and Firecrawl clients) and of the [fetch_article] and [list_hacker_news]
    tools (the tool definitions that follow the prompt template in
    [src/prompt.ts], which the agent imports as [./tools.ts]), with the
    properties the specification states about them and further properties
    of the code. The prompt text and the agent loop are outside this
    development.

    Layout:
    - [JS]: the part of the ECMAScript runtime the code calls
      (numbers, strings, [parseInt], [trim], [Array.prototype.slice],
      [JSON.stringify], [URLSearchParams], [Date.prototype.toISOString]);
    - [Async]: the effects ([fetch], [console], [Date.now], exceptions) as a
      state-and-exception monad over an explicit world;
    - [HackerNewsApi], [Tools]: the source functions, one definition each,
      under the source's names;
    - the theorems. *)

From Stdlib Require Import ZArith QArith String Ascii List Decimal DecimalString DecimalPos Lia.
From stdpp Require Import base option list strings.

Local Open Scope string_scope.
Local Open Scope Z_scope.

(* ===================================================================== *)
(** * The runtime                                                         *)
(* ===================================================================== *)

Module JS.

(** Strings are byte strings: the UTF-8 encoding of the JavaScript string.
    Every literal the program searches for or splices in is ASCII, for which
    searching and concatenating the encoding agrees with doing so on the
    code units. *)

Definition chr (n : nat) : string := String (ascii_of_nat n) EmptyString.

Definition dquote : string := chr 34.
Definition backslash : string := chr 92.
Definition newline : string := chr 10.

(** [number]: the values the program's numbers take. Identifiers, counts,
    limits and Unix times are integers; [parseInt] adds [NaN]. An integer
    stands for the double nearest to it (itself, up to 2^53). *)
Inductive number : Type :=
  | NaN
  | Num (z : Z).

(** [String(n)] and the [${n}] of a template literal: the decimal numeral
    of an integer (as JavaScript writes it below 10^21). *)
Definition toString (n : number) : string :=
  match n with
  | NaN => "NaN"
  | Num z => NilZero.string_of_int (Z.to_int z)
  end.

(** [s.includes(needle)]: [needle] occurs at some position of [s]. *)
Fixpoint includes (s needle : string) : bool :=
  String.prefix needle s ||
  match s with
  | EmptyString => false
  | String _ s' => includes s' needle
  end.

(** [s.startsWith]-style helper: the rest of [s] after the prefix [p]. *)
Fixpoint strip_prefix (p s : string) : option string :=
  match p, s with
  | EmptyString, _ => Some s
  | String a p', String b s' =>
      if Ascii.eqb a b then strip_prefix p' s' else None
  | String _ _, EmptyString => None
  end.

(** ** [parseInt(string)] with no radix (ECMA-262, 19.2.5) *)

Definition bytes (l : list nat) : string :=
  fold_right (fun n s => String (ascii_of_nat n) s) EmptyString l.

(** [StrWhiteSpaceChar]: white space and line terminators, UTF-8 encoded. *)
Definition StrWhiteSpaceChar : list string :=
  [ bytes [9%nat]; bytes [10%nat]; bytes [11%nat]; bytes [12%nat];
    bytes [13%nat]; bytes [32%nat];
    bytes [194; 160]%nat;                       (* U+00A0 *)
    bytes [225; 154; 128]%nat;                  (* U+1680 *)
    bytes [226; 128; 128]%nat; bytes [226; 128; 129]%nat;
    bytes [226; 128; 130]%nat; bytes [226; 128; 131]%nat;
    bytes [226; 128; 132]%nat; bytes [226; 128; 133]%nat;
    bytes [226; 128; 134]%nat; bytes [226; 128; 135]%nat;
    bytes [226; 128; 136]%nat; bytes [226; 128; 137]%nat;
    bytes [226; 128; 138]%nat;                  (* U+2000 .. U+200A *)
    bytes [226; 128; 168]%nat; bytes [226; 128; 169]%nat; (* U+2028, U+2029 *)
    bytes [226; 128; 175]%nat;                  (* U+202F *)
    bytes [226; 129; 159]%nat;                  (* U+205F *)
    bytes [227; 128; 128]%nat;                  (* U+3000 *)
    bytes [239; 187; 191]%nat ].                (* U+FEFF *)

Fixpoint strip_one_of (ps : list string) (s : string) : option string :=
  match ps with
  | [] => None
  | p :: ps' =>
      match strip_prefix p s with
      | Some r => Some r
      | None => strip_one_of ps' s
      end
  end.

Fixpoint trimStart_n (fuel : nat) (s : string) : string :=
  match fuel with
  | O => s
  | S fuel' =>
      match strip_one_of StrWhiteSpaceChar s with
      | Some r => trimStart_n fuel' r
      | None => s
      end
  end.

(** Each stripped character shortens the string, so its length is fuel
    enough. *)
Definition trimStart (s : string) : string := trimStart_n (String.length s) s.

(** The value of [c] as a digit of radix [R], if it is one. *)
Definition digit_value (R : N) (c : ascii) : option N :=
  let n := N_of_ascii c in
  let v :=
    if ((48 <=? n) && (n <=? 57))%N then Some (n - 48)%N
    else if ((97 <=? n) && (n <=? 122))%N then Some (n - 87)%N
    else if ((65 <=? n) && (n <=? 90))%N then Some (n - 55)%N
    else None in
  match v with
  | Some d => if (d <? R)%N then Some d else None
  | None => None
  end.

(** The longest prefix of radix-[R] digits, read left to right; [acc] is
    [None] until a digit has been read. *)
Fixpoint parse_digits (R : N) (s : string) (acc : option N) : option N :=
  match s with
  | EmptyString => acc
  | String c s' =>
      match digit_value R c with
      | Some d => parse_digits R s' (Some (R * default 0%N acc + d)%N)
      | None => acc
      end
  end.

(** The Number value of the integer [n]: [n] itself up to 2^53, and beyond
    that the nearest integer with 53 significant bits, a tie going to the
    even one. (An integer from 2^1024 - 2^970 on, which JavaScript reads
    as [Infinity], is outside [number].) *)
Definition nearest_double (n : N) : N :=
  if (n <=? 9007199254740992)%N then n
  else
    let shift := (N.size n - 53)%N in
    let q := N.shiftr n shift in
    let r := (n - N.shiftl q shift)%N in
    let half := N.shiftl 1 (shift - 1) in
    let q' := if (half <? r)%N || ((r =? half)%N && N.odd q) then (q + 1)%N else q in
    N.shiftl q' shift.

Definition parseInt (input : string) : number :=
  let S0 := trimStart input in
  let '(sign, S1) :=
    match S0 with
    | String c r =>
        if Ascii.eqb c "-" then (-1, r)
        else if Ascii.eqb c "+" then (1, r)
        else (1, S0)
    | EmptyString => (1, S0)
    end in
  let '(R, S2) :=
    match S1 with
    | String c0 (String c1 r) =>
        if Ascii.eqb c0 "0" && (Ascii.eqb c1 "x" || Ascii.eqb c1 "X")
        then (16%N, r) else (10%N, S1)
    | _ => (10%N, S1)
    end in
  match parse_digits R S2 None with
  | None => NaN
  | Some mathInt => Num (sign * Z.of_N (nearest_double mathInt))
  end.

(** ** [Array.prototype.slice(0, end)] (ECMA-262, 23.1.3.28)

    [end] is an integer or [NaN]; [ToIntegerOrInfinity(NaN)] is 0. A
    negative [end] counts from the end of the array. *)
Definition slice0 {A} (l : list A) (end_ : number) : list A :=
  let len := Z.of_nat (length l) in
  let relativeEnd := match end_ with NaN => 0 | Num z => z end in
  let final :=
    if relativeEnd <? 0 then Z.max (len + relativeEnd) 0
    else Z.min relativeEnd len in
  take (Z.to_nat final) l.

(** ** [JSON.stringify] (ECMA-262, 25.5.2) *)

#[warnings="-register-all"]
Inductive value : Type :=
  | Undefined
  | Null
  | Bool (b : bool)
  | Number (n : number)
  | Str (s : string)
  | Arr (elements : list value)
  | Obj (properties : list (string * value)).

Definition hex_digit (n : N) : string :=
  chr (N.to_nat (if (n <? 10)%N then 48 + n else 87 + n)%N).

Definition quote_char (c : ascii) : string :=
  let n := N_of_ascii c in
  if (n =? 8)%N then backslash +:+ "b"
  else if (n =? 9)%N then backslash +:+ "t"
  else if (n =? 10)%N then backslash +:+ "n"
  else if (n =? 12)%N then backslash +:+ "f"
  else if (n =? 13)%N then backslash +:+ "r"
  else if (n =? 34)%N then backslash +:+ dquote
  else if (n =? 92)%N then backslash +:+ backslash
  else if (n <? 32)%N
  then backslash +:+ "u00" +:+ hex_digit (n / 16) +:+ hex_digit (n mod 16)
  else String c EmptyString.

Fixpoint quote_chars (s : string) : string :=
  match s with
  | EmptyString => EmptyString
  | String c s' => quote_char c +:+ quote_chars s'
  end.

Definition QuoteJSONString (s : string) : string :=
  dquote +:+ quote_chars s +:+ dquote.

Fixpoint join (sep : string) (l : list string) : string :=
  match l with
  | [] => EmptyString
  | [x] => x
  | x :: l' => x +:+ sep +:+ join sep l'
  end.

Section Serialize.
(** [gap] is the indentation unit: empty for [JSON.stringify(v)], two
    spaces for [JSON.stringify(v, null, 2)]. *)
Variable gap : string.

(** [None] is [undefined]: the property is left out of an object and
    written [null] in an array. *)
Fixpoint SerializeJSONProperty (indent : string) (v : value) : option string :=
  match v with
  | Undefined => None
  | Null => Some "null"
  | Bool true => Some "true"
  | Bool false => Some "false"
  | Number NaN => Some "null"
  | Number n => Some (toString n)
  | Str s => Some (QuoteJSONString s)
  | Arr elements =>
      let stepback := indent in
      let indent := indent +:+ gap in
      let partial :=
        map (fun e => default "null" (SerializeJSONProperty indent e)) elements in
      Some
        match partial with
        | [] => "[]"
        | _ =>
            if String.eqb gap EmptyString
            then "[" +:+ join "," partial +:+ "]"
            else "[" +:+ newline +:+ indent
                 +:+ join ("," +:+ newline +:+ indent) partial
                 +:+ newline +:+ stepback +:+ "]"
        end
  | Obj properties =>
      let stepback := indent in
      let indent := indent +:+ gap in
      let partial :=
        omap (fun kv : string * value =>
                match SerializeJSONProperty indent (snd kv) with
                | Some strP =>
                    Some (QuoteJSONString (fst kv) +:+ ":"
                          +:+ (if String.eqb gap EmptyString then EmptyString else " ")
                          +:+ strP)
                | None => None
                end) properties in
      Some
        match partial with
        | [] => "{}"
        | _ =>
            if String.eqb gap EmptyString
            then "{" +:+ join "," partial +:+ "}"
            else "{" +:+ newline +:+ indent
                 +:+ join ("," +:+ newline +:+ indent) partial
                 +:+ newline +:+ stepback +:+ "}"
        end
  end.
End Serialize.

(** [JSON.stringify(v)] and [JSON.stringify(v, null, 2)], for a [v] that is
    not [undefined] (the program only passes object literals). *)
Definition JSON_stringify (v : value) : string :=
  default "undefined" (SerializeJSONProperty EmptyString EmptyString v).

Definition JSON_stringify_2 (v : value) : string :=
  default "undefined" (SerializeJSONProperty "  " EmptyString v).

(** The own property [k] of an object value. *)
Definition get (k : string) (v : value) : option value :=
  match v with
  | Obj properties => snd <$> List.find (fun kv => String.eqb (fst kv) k) properties
  | _ => None
  end.

(** ** [URLSearchParams] and its serialisation (URL standard, 5.2) *)

Definition urlencode_byte (c : ascii) : string :=
  let n := N_of_ascii c in
  if ((48 <=? n) && (n <=? 57) || (65 <=? n) && (n <=? 90)
      || (97 <=? n) && (n <=? 122)
      || (n =? 42) || (n =? 45) || (n =? 46) || (n =? 95))%N
  then String c EmptyString
  else if (n =? 32)%N then "+"
  else "%" +:+ chr (N.to_nat (let h := (n / 16)%N in if (h <? 10)%N then 48 + h else 55 + h)%N)
           +:+ chr (N.to_nat (let h := (n mod 16)%N in if (h <? 10)%N then 48 + h else 55 + h)%N).

Fixpoint urlencode (s : string) : string :=
  match s with
  | EmptyString => EmptyString
  | String c s' => urlencode_byte c +:+ urlencode s'
  end.

Definition URLSearchParams := list (string * string).

Definition URLSearchParams_toString (params : URLSearchParams) : string :=
  join "&" (map (fun kv => urlencode (fst kv) +:+ "=" +:+ urlencode (snd kv)) params).

(** Truthiness of a string and of an optional string. *)
Definition truthy (s : string) : bool := negb (String.eqb s EmptyString).

Definition or_else (s : option string) (d : string) : string :=
  match s with
  | Some x => if truthy x then x else d
  | None => d
  end.

(** ** [String.prototype.trim] *)

(** White space only: stripping from the start leaves nothing. *)
Definition all_white_space (s : string) : bool :=
  String.eqb (trimStart s) EmptyString.

(** [s.trimEnd()]: [s] up to the first position from which only white space
    follows. *)
Fixpoint trimEnd (s : string) : string :=
  if all_white_space s then EmptyString
  else
    match s with
    | EmptyString => EmptyString
    | String c s' => String c (trimEnd s')
    end.

Definition trim (s : string) : string := trimEnd (trimStart s).

(** ** Arithmetic on numbers *)

(** [Math.min(a, b)] *)
Definition Math_min (a b : number) : number :=
  match a, b with
  | Num x, Num y => Num (Z.min x y)
  | _, _ => NaN
  end.

(** [a * b] *)
Definition mul (a b : number) : number :=
  match a, b with
  | Num x, Num y => Num (x * y)
  | _, _ => NaN
  end.

(** [n || d] for an optional number: 0, [NaN] and [undefined] are falsy. *)
Definition number_or (n : option number) (d : number) : number :=
  match n with
  | Some (Num z) => if z =? 0 then d else Num z
  | Some NaN | None => d
  end.

(** ** [new Date(tv).toISOString()] (ECMA-262, 21.4.4.36) *)

(** The decimal numeral of [n >= 0], padded with zeros to [width] digits. *)
Definition pad (width : nat) (n : Z) : string :=
  let digits := toString (Num n) in
  bytes (replicate (width - String.length digits) 48%nat) +:+ digits.

(** Year, month and day of the day number [days] (days since 1970-01-01)
    in the proleptic Gregorian calendar. *)
Definition civil_from_days (days : Z) : Z * Z * Z :=
  let z := days + 719468 in
  let era := z / 146097 in
  let doe := z - era * 146097 in
  let yoe := (doe - doe / 1460 + doe / 36524 - doe / 146096) / 365 in
  let doy := doe - (365 * yoe + yoe / 4 - yoe / 100) in
  let mp := (5 * doy + 2) / 153 in
  let d := doy - (153 * mp + 2) / 5 + 1 in
  let m := if mp <? 10 then mp + 3 else mp - 9 in
  let y := yoe + era * 400 + (if m <=? 2 then 1 else 0) in
  (y, m, d).

(** [None] is the [RangeError] of an invalid date: a time value that is
    [NaN] or beyond 8.64e15 milliseconds from the epoch. *)
Definition toISOString (tv : number) : option string :=
  match tv with
  | NaN => None
  | Num t =>
      if 8640000000000000 <? Z.abs t then None
      else
        let day := t / 86400000 in
        let ms := t mod 86400000 in
        let '(y, m, d) := civil_from_days day in
        let year :=
          if (0 <=? y) && (y <=? 9999) then pad 4 y
          else (if y <? 0 then "-" else "+") +:+ pad 6 (Z.abs y) in
        Some (year +:+ "-" +:+ pad 2 m +:+ "-" +:+ pad 2 d
              +:+ "T" +:+ pad 2 (ms / 3600000)
              +:+ ":" +:+ pad 2 (ms / 60000 mod 60)
              +:+ ":" +:+ pad 2 (ms / 1000 mod 60)
              +:+ "." +:+ pad 3 (ms mod 1000) +:+ "Z")
  end.

End JS.

(* ===================================================================== *)
(** * Effects                                                             *)
(* ===================================================================== *)

Module Async.
Import JS.

(** What a [catch] clause can receive: an instance of [Error] with its
    message, or some other thrown value. *)
Inductive Exn : Type :=
  | JsError (message : string)
  | NotAnError.

Inductive Completion (A : Type) : Type :=
  | Normal (a : A)
  | Throw (e : Exn).
Arguments Normal {A} a.
Arguments Throw {A} e.

(** The argument of [fetch]. *)
Record Request : Type := {
  req_url : string;
  req_method : string;
  req_headers : list (string * string);
  req_body : option string
}.

Definition GET (url : string) : Request :=
  {| req_url := url; req_method := "GET"; req_headers := []; req_body := None |}.

(** A response: its status line and what reading its body gives (the text,
    or the fault that interrupts the transfer). *)
Record Response : Type := {
  status : Z;
  payload : Completion string
}.

Definition ok (r : Response) : bool := (200 <=? status r) && (status r <=? 299).

Inductive LogLine : Type :=
  | Log (msg : string)
  | LogError (msg : string) (error : Exn).

(** The world a call runs in. [server] and [clock] are the environment:
    what the network answers to a request and what the wall clock shows
    (in milliseconds), each as a function of the requests issued before.
    [requests] and [console] are what the program has done so far, oldest
    first. *)
Record World : Type := {
  server : list Request -> Request -> Completion Response;
  clock : list Request -> Z;
  requests : list Request;
  console : list LogLine
}.

(** An [async] function body: it may issue requests, log, and finish
    normally or by throwing. [await] of a promise the code has just
    created is sequencing. *)
Definition M (A : Type) : Type := World -> Completion A * World.

Definition ret {A} (a : A) : M A := fun w => (Normal a, w).

Definition throw {A} (e : Exn) : M A := fun w => (Throw e, w).

Definition bind {A B} (m : M A) (k : A -> M B) : M B :=
  fun w =>
    match m w with
    | (Normal a, w') => k a w'
    | (Throw e, w') => (Throw e, w')
    end.

Definition try_catch {A} (body : M A) (handler : Exn -> M A) : M A :=
  fun w =>
    match body w with
    | (Normal a, w') => (Normal a, w')
    | (Throw e, w') => handler e w'
    end.

Declare Scope async_scope.
Delimit Scope async_scope with async.
Notation "'let*' x ':=' m 'in' k" := (bind m (fun x => k))
  (at level 10, x name, m at level 99, k at level 200) : async_scope.
Notation "m ';;' k" := (bind m (fun _ => k))
  (at level 100, k at level 200, right associativity) : async_scope.
Local Open Scope async_scope.

(** [fetch(request)]: the call is recorded and the environment answers. *)
Definition fetch (r : Request) : M Response :=
  fun w =>
    (server w (requests w) r,
     {| server := server w; clock := clock w;
        requests := (requests w ++ [r])%list; console := console w |}).

Definition write_console (l : LogLine) : M unit :=
  fun w =>
    (Normal tt,
     {| server := server w; clock := clock w;
        requests := requests w; console := (console w ++ [l])%list |}).

Definition console_log (msg : string) : M unit := write_console (Log msg).

Definition console_error (msg : string) (error : Exn) : M unit :=
  write_console (LogError msg error).

(** [Date.now()], in milliseconds. *)
Definition Date_now : M Z := fun w => (Normal (clock w (requests w)), w).

(** [response.text()] *)
Definition text (r : Response) : M string := fun w => (payload r, w).

(** [JSON.parse] at the type the TypeScript source gives the result: the
    decoded value, or the [SyntaxError] thrown. *)
Class FromJSON (T : Type) : Type := JSON_parse : string -> Completion T.

(** [response.json()] *)
Definition json {T} `{FromJSON T} (r : Response) : M T :=
  let* body := text r in
  fun w => (JSON_parse body, w).

(** [Promise.all(promises)] over promises made by calling async functions in
    list order: every one of them runs, whatever the others do, and their
    requests are issued in list order; the result is the list of their
    values in list order, or a rejection if one of them rejected. (At run
    time the continuations of different promises may interleave, which can
    only reorder their console lines.) *)
Fixpoint Promise_all {A} (promises : list (M A)) : M (list A) :=
  fun w =>
    match promises with
    | [] => (Normal [], w)
    | p :: promises' =>
        let '(c, w1) := p w in
        let '(cs, w2) := Promise_all promises' w1 in
        (match c, cs with
         | Normal a, Normal l => Normal (a :: l)
         | Throw e, _ => Throw e
         | Normal _, Throw e => Throw e
         end, w2)
    end.

(** [error instanceof Error ? error.message : fallback] *)
Definition message_or (error : Exn) (fallback : string) : string :=
  match error with
  | JsError message => message
  | NotAnError => fallback
  end.

End Async.

(* ===================================================================== *)
(** * [src/hackernews-api.ts]                                             *)
(* ===================================================================== *)

Module HackerNewsApi.
Import JS Async.
Local Open Scope async_scope.

(** ["story" | "comment" | "job" | "poll" | "pollopt"] and its [===]. *)
Module ItemType.
Inductive t : Type := story | comment | job | poll | pollopt.

Definition eqb (a b : t) : bool :=
  match a, b with
  | story, story | comment, comment | job, job
  | poll, poll | pollopt, pollopt => true
  | _, _ => false
  end.
End ItemType.

(** [interface HNItem]; an optional field is an [option]. *)
Module HNItem.
Record t : Type := mk {
  id : number;
  type : ItemType.t;
  by_ : string;   (* [by], a reserved word here *)
  time : number;
  text : option string;
  dead : option bool;
  parent : option number;
  poll : option number;
  kids : option (list number);
  url : option string;
  score : option number;
  title : option string;
  parts : option (list number);
  descendants : option number
}.
End HNItem.

(** An element of [AlgoliaSearchResult["hits"]]. *)
Module Hit.
Record t : Type := mk {
  objectID : string;
  title : string;
  url : option string;
  author : string;
  points : number;
  num_comments : number;
  created_at_i : number
}.
End Hit.

Record AlgoliaSearchResult : Type := {
  hits : list Hit.t;
  nbHits : number
}.

Module FirecrawlMetadata.
Record t : Type := mk {
  title : option string;
  description : option string;
  language : option string;
  keywords : option string;
  robots : option string;
  ogTitle : option string;
  ogDescription : option string;
  ogUrl : option string;
  ogImage : option string;
  ogLocaleAlternate : option (list string);
  ogSiteName : option string;
  sourceURL : string;
  statusCode : option number
}.
End FirecrawlMetadata.

Module FirecrawlData.
Record t : Type := mk {
  markdown : option string;
  html : option string;
  rawHtml : option string;
  screenshot : option string;
  links : option (list string);
  metadata : option FirecrawlMetadata.t
}.
End FirecrawlData.

Record FirecrawlScrapeResult : Type := {
  success : bool;
  data : option FirecrawlData.t;
  error : option string
}.

Module Format.
Inductive t : Type := markdown | html | rawHtml | screenshot | links.

Definition name (f : t) : string :=
  match f with
  | markdown => "markdown"
  | html => "html"
  | rawHtml => "rawHtml"
  | screenshot => "screenshot"
  | links => "links"
  end.
End Format.

Module FirecrawlScrapeOptions.
Record t : Type := mk {
  formats : option (list Format.t);
  onlyMainContent : option bool;
  includeTags : option (list string);
  excludeTags : option (list string);
  headers : option (list (string * string));
  waitFor : option number;
  timeout : option number
}.

(** The default argument [{}]. *)
Definition empty : t := mk None None None None None None None.
End FirecrawlScrapeOptions.

Definition HN_API_BASE : string := "https://hacker-news.firebaseio.com/v0".

Definition FIRECRAWL_API_BASE : string := "https://api.firecrawl.dev/v2".

(** [a >= q] for a number and an exact rational; [NaN] compares false.
    The threshold of the recency filter, [Date.now() / 1000 - 86400], is
    computed in the rationals: against an integer time the comparison comes
    out as it does on doubles for every clock reading from 1970-01-02 on
    (the quotient keeps its integer part and the subtraction is exact). *)
Definition ge (a : number) (q : Q) : bool :=
  match a with
  | NaN => false
  | Num z => Qle_bool q (inject_Z z)
  end.

(** [items.filter((item): item is HNItem => item !== null)] *)
Fixpoint filter_not_null {A} (items : list (option A)) : list A :=
  match items with
  | [] => []
  | Some item :: items' => item :: filter_not_null items'
  | None :: items' => filter_not_null items'
  end.

(** An optional property of an object literal handed to [JSON.stringify]. *)
Definition optional {A} (f : A -> value) (o : option A) : value :=
  match o with
  | Some a => f a
  | None => Undefined
  end.

Section Client.
(** The shapes the endpoints are trusted to answer with. *)
Context {item_json : FromJSON (option HNItem.t)}
        {ids_json : FromJSON (list number)}
        {search_json : FromJSON AlgoliaSearchResult}
        {scrape_json : FromJSON FirecrawlScrapeResult}.

Definition getItem (id : number) : M (option HNItem.t) :=
  try_catch
    (let* response :=
       fetch (GET (HN_API_BASE +:+ "/item/" +:+ toString id +:+ ".json")) in
     if negb (ok response) then ret None
     else json response)
    (fun error =>
       console_error ("Error fetching item " +:+ toString id +:+ ":") error ;;
       ret None).

(** [limit = 30]: [None] is the omitted argument. *)
Definition getTopStories (limit : option number) : M (list number) :=
  let limit := default (Num 30) limit in
  try_catch
    (let* response := fetch (GET (HN_API_BASE +:+ "/topstories.json")) in
     if negb (ok response) then ret []
     else
       let* ids := json response in
       ret (slice0 ids limit))
    (fun error =>
       console_error "Error fetching top stories:" error ;;
       ret []).

Definition getNewStories (limit : option number) : M (list number) :=
  let limit := default (Num 30) limit in
  try_catch
    (let* response := fetch (GET (HN_API_BASE +:+ "/newstories.json")) in
     if negb (ok response) then ret []
     else
       let* ids := json response in
       ret (slice0 ids limit))
    (fun error =>
       console_error "Error fetching new stories:" error ;;
       ret []).

Definition getBestStories (limit : option number) : M (list number) :=
  let limit := default (Num 30) limit in
  try_catch
    (let* response := fetch (GET (HN_API_BASE +:+ "/beststories.json")) in
     if negb (ok response) then ret []
     else
       let* ids := json response in
       ret (slice0 ids limit))
    (fun error =>
       console_error "Error fetching best stories:" error ;;
       ret []).

Definition getItems (ids : list number) : M (list HNItem.t) :=
  let promises := map (fun id => getItem id) ids in
  let* items := Promise_all promises in
  ret (filter_not_null items).

Definition getTodaysTopStories (count : option number) : M (list HNItem.t) :=
  let count := default (Num 30) count in
  let* topStoryIds := getTopStories (Some count) in
  let* stories := getItems topStoryIds in
  (* Filter stories from the last 24 hours *)
  let* now := Date_now in
  let oneDayAgo := (inject_Z now / 1000 - 24 * 60 * 60)%Q in
  let todaysStories :=
    List.filter
      (fun story =>
         ge (HNItem.time story) oneDayAgo
         && ItemType.eqb (HNItem.type story) ItemType.story)
      stories in
  ret todaysStories.

(** [tags = "story"] and the optional [numericFilters]. *)
Definition searchStories (query : string) (tags : option string)
    (numericFilters : option string) : M AlgoliaSearchResult :=
  let tags := default "story" tags in
  try_catch
    (let params : URLSearchParams :=
       [("query", query); ("tags", tags); ("hitsPerPage", "30")] in
     let params :=
       match numericFilters with
       | Some nf =>
           if truthy nf then (params ++ [("numericFilters", nf)])%list else params
       | None => params
       end in
     let* response :=
       fetch (GET ("https://hn.algolia.com/api/v1/search?"
                   +:+ URLSearchParams_toString params)) in
     if negb (ok response)
     then throw (JsError ("Search failed: " +:+ toString (Num (status response))))
     else json response)
    (fun error =>
       console_error
         ("Error searching stories for " +:+ dquote +:+ query +:+ dquote +:+ ":")
         error ;;
       ret {| hits := []; nbHits := Num 0 |}).

Definition algoliaToHNItem (hit : Hit.t) : HNItem.t :=
  {| HNItem.id := parseInt (Hit.objectID hit);
     HNItem.type := ItemType.story;
     HNItem.by_ := Hit.author hit;
     HNItem.time := Hit.created_at_i hit;
     HNItem.title := Some (Hit.title hit);
     HNItem.url := Hit.url hit;
     HNItem.score := Some (Hit.points hit);
     HNItem.descendants := Some (Hit.num_comments hit);
     HNItem.text := None; HNItem.dead := None; HNItem.parent := None;
     HNItem.poll := None; HNItem.kids := None; HNItem.parts := None |}.

(** The request [scrapeUrl] sends. The rest properties ([...otherOptions])
    are written in the order the interface declares them. *)
Definition scrape_request (url apiKey : string)
    (options : FirecrawlScrapeOptions.t) : Request :=
  let formats :=
    default [Format.markdown] (FirecrawlScrapeOptions.formats options) in
  let onlyMainContent :=
    default true (FirecrawlScrapeOptions.onlyMainContent options) in
  let timeout :=
    default (Num 30000) (FirecrawlScrapeOptions.timeout options) in
  {| req_url := FIRECRAWL_API_BASE +:+ "/scrape";
     req_method := "POST";
     req_headers :=
       [("Authorization", "Bearer " +:+ apiKey);
        ("Content-Type", "application/json")];
     req_body :=
       Some (JSON_stringify
         (Obj [("url", Str url);
               ("formats", Arr (map (fun f => Str (Format.name f)) formats));
               ("onlyMainContent", Bool onlyMainContent);
               ("timeout", Number timeout);
               ("includeTags",
                optional (fun l => Arr (map Str l))
                  (FirecrawlScrapeOptions.includeTags options));
               ("excludeTags",
                optional (fun l => Arr (map Str l))
                  (FirecrawlScrapeOptions.excludeTags options));
               ("headers",
                optional (fun l => Obj (map (fun kv => (fst kv, Str (snd kv))) l))
                  (FirecrawlScrapeOptions.headers options));
               ("waitFor",
                optional Number (FirecrawlScrapeOptions.waitFor options))])) |}.

Definition scrapeUrl (url apiKey : string)
    (options : FirecrawlScrapeOptions.t) : M FirecrawlScrapeResult :=
  try_catch
    (let* response := fetch (scrape_request url apiKey options) in
     if negb (ok response) then
       let* errorText := text response in
       ret {| success := false;
              data := None;
              error := Some ("Firecrawl API error: "
                             +:+ toString (Num (status response))
                             +:+ " - " +:+ errorText) |}
     else
       let* result := json response in
       ret result)
    (fun error =>
       console_error ("Error scraping URL " +:+ url +:+ ":") error ;;
       ret {| success := false;
              data := None;
              error := Some (message_or error "Unknown error") |}).
End Client.

(** The link to an item's discussion page. *)
Definition discussion_url (id : number) : string :=
  "https://news.ycombinator.com/item?id=" +:+ toString id.

Definition formatStory (story : HNItem.t) : string :=
  let title := or_else (HNItem.title story) "No title" in
  let url := or_else (HNItem.url story) (discussion_url (HNItem.id story)) in
  let points := number_or (HNItem.score story) (Num 0) in
  let comments := number_or (HNItem.descendants story) (Num 0) in
  let author := or_else (Some (HNItem.by_ story)) "unknown" in
  trim
    (newline +:+ bytes [240; 159; 147; 176]%nat +:+ " " +:+ title
     +:+ newline +:+ "   " +:+ bytes [240; 159; 145; 164]%nat +:+ " " +:+ author
     +:+ " | " +:+ bytes [226; 172; 134; 239; 184; 143]%nat
     +:+ " " +:+ toString points +:+ " points | "
     +:+ bytes [240; 159; 146; 172]%nat
     +:+ " " +:+ toString comments +:+ " comments"
     +:+ newline +:+ "   " +:+ bytes [240; 159; 148; 151]%nat +:+ " " +:+ url
     +:+ newline +:+ "  ").

End HackerNewsApi.

(* ===================================================================== *)
(** * [src/tools.ts]: the [fetch_article] tool                            *)
(* ===================================================================== *)

Module Tools.
Import JS Async HackerNewsApi.
Local Open Scope async_scope.

(** The validated argument of [fetch_article]. *)
Module Input.
Record t : Type := mk {
  url : string;
  story_title : option string
}.
End Input.

Definition KEY_NOT_SET : string :=
  "FIRECRAWL_API_KEY environment variable is not set. Please set it to use article summarization.".

Definition DISCUSSION_NOTE : string :=
  "This is a Hacker News discussion page, not an external article. It contains comments and discussion but no article content to scrape.".

Section Tool.
Context {scrape_json : FromJSON FirecrawlScrapeResult}.

(** [Deno.env.get], read once when the module is loaded. *)
Variable Deno_env_get : string -> option string.

Definition FIRECRAWL_API_KEY : string :=
  or_else (Deno_env_get "FIRECRAWL_API_KEY") EmptyString.

(** [fetchArticleTool.execute] *)
Definition fetchArticleTool (input : Input.t) : M string :=
  try_catch
    (let url := Input.url input in
     let story_title := Input.story_title input in
     if negb (truthy FIRECRAWL_API_KEY) then
       ret (JSON_stringify (Obj [("error", Str KEY_NOT_SET)]))
     else
     (* Check if URL is a HN discussion link (not an external article) *)
     if includes url "news.ycombinator.com/item" then
       ret (JSON_stringify
              (Obj [("url", Str url);
                    ("story_title", optional Str story_title);
                    ("note", Str DISCUSSION_NOTE)]))
     else
     console_log (newline +:+ bytes [240; 159; 148; 141]%nat
                  +:+ " Fetching article content from: " +:+ url) ;;
     (* Scrape the article using Firecrawl *)
     let* result :=
       scrapeUrl url FIRECRAWL_API_KEY
         (FirecrawlScrapeOptions.mk (Some [Format.markdown]) (Some true)
            None None None None (Some (Num 30000))) in
     match success result, data result with
     | false, _ | true, None =>
         (* [!result.success || !result.data] *)
         ret (JSON_stringify
                (Obj [("url", Str url);
                      ("story_title", optional Str story_title);
                      ("error",
                       Str (or_else (error result)
                              "Failed to fetch article content"))]))
     | true, Some data =>
         (* Return the scraped content *)
         let metadata := FirecrawlData.metadata data in
         ret (JSON_stringify_2
                (Obj [("url", Str url);
                      ("story_title", optional Str story_title);
                      ("content",
                       Str (or_else (FirecrawlData.markdown data)
                              "No content available"));
                      ("metadata",
                       Obj [("title",
                             optional Str (metadata ≫= FirecrawlMetadata.title));
                            ("description",
                             optional Str (metadata ≫= FirecrawlMetadata.description));
                            ("author",
                             optional Str (metadata ≫= FirecrawlMetadata.ogSiteName))])]))
     end)
    (fun error =>
       ret (JSON_stringify
              (Obj [("url", Str (Input.url input));
                    ("error", Str (message_or error "Unknown error occurred"))]))).
End Tool.

(** ** The [list_hacker_news] tool *)

(** The validated argument of [list_hacker_news]. *)
Module ListInput.
Record t : Type := mk {
  category : string;
  limit : option number
}.
End ListInput.

(** The callback of [stories.map]: one entry of the reply. Only
    [toISOString] can throw, the [RangeError] of an invalid date (the
    message is V8's). *)
Definition format_story (story : HNItem.t) (index : nat) : Completion value :=
  match toISOString (mul (HNItem.time story) (Num 1000)) with
  | None => Throw (JsError "Invalid time value")
  | Some time =>
      Normal
        (Obj [("rank", Number (Num (Z.of_nat index + 1)));
              ("id", Number (HNItem.id story));
              ("title", Str (or_else (HNItem.title story) "No title"));
              ("url", Str (or_else (HNItem.url story)
                             (discussion_url (HNItem.id story))));
              ("author", Str (or_else (Some (HNItem.by_ story)) "unknown"));
              ("score", Number (number_or (HNItem.score story) (Num 0)));
              ("comments", Number (number_or (HNItem.descendants story) (Num 0)));
              ("time", Str time)])
  end.

(** [stories.map(callback)] from index [index] on: in order, up to the
    first entry that throws. *)
Fixpoint format_stories (stories : list HNItem.t) (index : nat)
    : Completion (list value) :=
  match stories with
  | [] => Normal []
  | story :: stories' =>
      match format_story story index with
      | Throw e => Throw e
      | Normal entry =>
          match format_stories stories' (S index) with
          | Normal entries => Normal (entry :: entries)
          | Throw e => Throw e
          end
      end
  end.

Section ListTool.
Context {item_json : FromJSON (option HNItem.t)}
        {ids_json : FromJSON (list number)}.

(** [listNewsTool.execute]; [respond] is the code after the [switch]. *)
Definition listNewsTool (input : ListInput.t) : M string :=
  try_catch
    (let category := ListInput.category input in
     let limit := default (Num 30) (ListInput.limit input) in
     let respond (stories : list HNItem.t) : M string :=
       (* Format the response *)
       match format_stories stories 0 with
       | Throw e => throw e
       | Normal formattedStories =>
           ret (JSON_stringify_2
                  (Obj [("category", Str category);
                        ("count", Number (Num (Z.of_nat (length formattedStories))));
                        ("stories", Arr formattedStories)]))
       end in
     (* Fetch stories based on category *)
     if String.eqb category "top" then
       let* ids := getTopStories (Some (Math_min limit (Num 50))) in
       let* stories := getItems ids in
       respond stories
     else if String.eqb category "new" then
       let* ids := getNewStories (Some (Math_min limit (Num 50))) in
       let* stories := getItems ids in
       respond stories
     else if String.eqb category "best" then
       let* ids := getBestStories (Some (Math_min limit (Num 50))) in
       let* stories := getItems ids in
       respond stories
     else if String.eqb category "today" then
       let* stories := getTodaysTopStories (Some (Math_min limit (Num 50))) in
       respond stories
     else
       ret (JSON_stringify (Obj [("error", Str ("Unknown category: " +:+ category))])))
    (fun error =>
       ret (JSON_stringify
              (Obj [("error", Str (message_or error "Unknown error occurred"))]))).
End ListTool.

End Tools.

(* ===================================================================== *)
(** * Vocabulary of the properties                                        *)
(* ===================================================================== *)

Import JS Async HackerNewsApi Tools.

(** The world a call leaves and what it returns. *)
Definition result_of {A} (r : Completion A * World) : Completion A := fst r.
Definition world_after {A} (r : Completion A * World) : World := snd r.

(** The requests a call issued: what it appended to the history. *)
Definition no_network_call {A} (w : World) (r : Completion A * World) : Prop :=
  requests (world_after r) = requests w.

(** The JSON text [out] contains the string literal for [s]. *)
Definition mentions (out s : string) : bool := includes out (QuoteJSONString s).

(** The discussion-page pattern of the tool. *)
Definition is_discussion_page (url : string) : bool :=
  includes url "news.ycombinator.com/item".

(** The environment variable is missing or empty. *)
Definition key_missing (env : string -> option string) : Prop :=
  env "FIRECRAWL_API_KEY" = None \/ env "FIRECRAWL_API_KEY" = Some EmptyString.

(** The network answers [req] with a fault: the transport fails or the
    status is not a success. *)
Definition faulty (w : World) (req : Request) : bool :=
  match server w (requests w) req with
  | Throw _ => true
  | Normal response => negb (ok response)
  end.

Definition item_request (id : number) : Request :=
  GET (HN_API_BASE +:+ "/item/" +:+ toString id +:+ ".json").

Definition topstories : Request := GET (HN_API_BASE +:+ "/topstories.json").
Definition newstories : Request := GET (HN_API_BASE +:+ "/newstories.json").
Definition beststories : Request := GET (HN_API_BASE +:+ "/beststories.json").

Definition search_request (query : string) (tags numericFilters : option string)
    : Request :=
  let params : URLSearchParams :=
    [("query", query); ("tags", default "story" tags); ("hitsPerPage", "30")] in
  let params :=
    match numericFilters with
    | Some nf => if truthy nf then (params ++ [("numericFilters", nf)])%list else params
    | None => params
    end in
  GET ("https://hn.algolia.com/api/v1/search?" +:+ URLSearchParams_toString params).

(** The identifier list the feed endpoint [req] delivers in world [w]:
    [None] when the fetch fails (transport fault, non-success status, a body
    that cannot be read or decoded). *)
Definition upstream_feed {ids_json : FromJSON (list number)} (req : Request) (w : World)
    : option (list number) :=
  match server w (requests w) req with
  | Normal response =>
      if ok response then
        match payload response with
        | Normal body =>
            match JSON_parse body with
            | Normal ids => Some ids
            | Throw _ => None
            end
        | Throw _ => None
        end
      else None
  | Throw _ => None
  end.

(** What each identifier of [ids] resolves to, in input order, when the
    identifiers are resolved from world [w] on: the item, or [None] for an
    identifier that is absent. *)
Fixpoint resolutions {item_json : FromJSON (option HNItem.t)} (ids : list number) (w : World)
    : list (option HNItem.t) :=
  match ids with
  | [] => []
  | id :: ids' =>
      match getItem id w with
      | (Normal item, w') => item :: resolutions ids' w'
      | (Throw _, w') => None :: resolutions ids' w'
      end
  end.

(** The identifiers that resolved, each with its item, in input order. *)
Fixpoint survivors {A} (ids : list number) (rs : list (option A))
    : list (number * A) :=
  match ids, rs with
  | id :: ids', Some item :: rs' => (id, item) :: survivors ids' rs'
  | _ :: ids', None :: rs' => survivors ids' rs'
  | _, _ => []
  end.

(** How many identifiers resolved to absent. *)
Definition absent {A} (rs : list (option A)) : nat :=
  length (List.filter (fun r => match r with Some _ => false | None => true end) rs).

(** What the specification asks of a reply to a discussion-page URL: it
    carries the URL and the explanatory note. *)
Definition answers_with_url_and_note (r : Completion string * World)
    (url : string) : Prop :=
  exists out, result_of r = Normal out
    /\ mentions out url = true /\ mentions out DISCUSSION_NOTE = true.

(** A list fetch with limit [N] over the feed [feed] ([None]: the fetch
    failed) returns the first [N] entries: at most [N] of them, at most as
    many as the feed has, in feed order; and the empty list on failure. *)
Definition truncates (N : Z) (feed : option (list number))
    (r : Completion (list number)) : Prop :=
  exists result, r = Normal result
    /\ Z.of_nat (length result) <= N
    /\ match feed with
       | Some ids =>
           result = take (Z.to_nat N) ids /\ (length result <= length ids)%nat
       | None => result = []
       end.

(** A list fetch with the negative limit [n] returns the feed without its
    last [|n|] entries. *)
Definition drops_last (n : Z) (feed : option (list number))
    (r : Completion (list number)) : Prop :=
  exists result, r = Normal result
    /\ match feed with
       | Some ids =>
           result = take (length ids - Z.to_nat (- n)) ids
           /\ (exists dropped,
                 ids = (result ++ dropped)%list
                 /\ length dropped = Nat.min (Z.to_nat (- n)) (length ids))
           /\ ((Z.to_nat (- n) < length ids)%nat -> result <> [])
       | None => result = []
       end.

(** [story] is a story created no earlier than 86400 seconds before the
    instant [now] (in milliseconds): [time >= now / 1000 - 86400]. *)
Definition recent_story (now : Z) (story : HNItem.t) : Prop :=
  exists t : Z,
    HNItem.time story = Num t
    /\ (inject_Z now / 1000 - 86400 <= inject_Z t)%Q
    /\ HNItem.type story = ItemType.story.

(** The test of the recency filter, on the instant [now] that [Date.now()]
    gives. *)
Definition is_recent_story (now : Z) (story : HNItem.t) : bool :=
  ge (HNItem.time story) (inject_Z now / 1000 - 24 * 60 * 60)%Q
  && ItemType.eqb (HNItem.type story) ItemType.story.

(** The failure [scrapeUrl] reports. *)
Definition scrape_failure (error : string) : FirecrawlScrapeResult :=
  {| success := false; data := None; error := Some error |}.

(** What [scrapeUrl] makes of each answer of the environment. *)
Definition scrape_outcome {scrape_json : FromJSON FirecrawlScrapeResult}
    (answer : Completion Response) : FirecrawlScrapeResult :=
  match answer with
  | Throw e => scrape_failure (message_or e "Unknown error")
  | Normal response =>
      match payload response with
      | Throw e => scrape_failure (message_or e "Unknown error")
      | Normal body =>
          if ok response then
            match JSON_parse body with
            | Normal result => result
            | Throw e => scrape_failure (message_or e "Unknown error")
            end
          else
            scrape_failure
              ("Firecrawl API error: " +:+ toString (Num (status response))
               +:+ " - " +:+ body)
      end
  end.

(** ** Vocabulary for the tools and the formatter *)

(** The options [fetch_article] passes to [scrapeUrl]. *)
Definition tool_options : FirecrawlScrapeOptions.t :=
  FirecrawlScrapeOptions.mk (Some [Format.markdown]) (Some true)
    None None None None (Some (Num 30000)).

(** How often the character [c] occurs in [s]. *)
Fixpoint count_char (c : ascii) (s : string) : nat :=
  match s with
  | EmptyString => O
  | String x s' => (if Ascii.eqb x c then 1 else 0) + count_char c s'
  end.

(** [c] is a byte of the encoding of some white-space character. *)
Definition white_space_byte (c : ascii) : bool :=
  existsb (fun p => includes p (String c EmptyString)) StrWhiteSpaceChar.

(** The categories the [switch] of [list_hacker_news] knows. *)
Definition known_category (category : string) : Prop :=
  category = "top" \/ category = "new" \/ category = "best"
  \/ category = "today".

(** The feed a category reads. *)
Definition feed_request (category : string) : Request :=
  if String.eqb category "new" then newstories
  else if String.eqb category "best" then beststories
  else topstories.

(** The limit [list_hacker_news] hands on: [Math.min(limit, 50)], with 30
    for an omitted limit. *)
Definition effective_limit (input : ListInput.t) : number :=
  Math_min (default (Num 30) (ListInput.limit input)) (Num 50).

(** An optional limit that is not a negative number, and the count it
    stands for (30 when omitted; [slice(0, NaN)] is empty). *)
Definition not_negative (limit : option number) : Prop :=
  match limit with
  | Some (Num n) => 0 <= n
  | Some NaN | None => True
  end.

Definition as_count (limit : option number) : Z :=
  match limit with
  | Some (Num n) => n
  | Some NaN => 0
  | None => 30
  end.

(** The identifiers a list fetch with limit [limit] returns for [feed]. *)
Definition listed (feed : option (list number)) (limit : option number)
    : list number :=
  match feed with
  | Some ids => slice0 ids (default (Num 30) limit)
  | None => []
  end.

(** The reply of [list_hacker_news] for the stories it fetched. *)
Definition list_reply (category : string) (stories : list HNItem.t) : string :=
  match format_stories stories 0 with
  | Normal entries =>
      JSON_stringify_2
        (Obj [("category", Str category);
              ("count", Number (Num (Z.of_nat (length entries))));
              ("stories", Arr entries)])
  | Throw e =>
      JSON_stringify (Obj [("error", Str (message_or e "Unknown error occurred"))])
  end.

(** What the [switch] of [list_hacker_news] fetches for a known category. *)
Definition fetch_stories {item_json : FromJSON (option HNItem.t)}
    {ids_json : FromJSON (list number)} (category : string) (limit : number)
    : M (list HNItem.t) :=
  if String.eqb category "today" then getTodaysTopStories (Some limit)
  else
    bind
      (if String.eqb category "new" then getNewStories (Some limit)
       else if String.eqb category "best" then getBestStories (Some limit)
       else getTopStories (Some limit))
      (fun ids => getItems ids).

(** [new Date(story.time * 1000)] is a valid date. *)
Definition valid_time (story : HNItem.t) : bool :=
  match toISOString (mul (HNItem.time story) (Num 1000)) with
  | Some _ => true
  | None => false
  end.

(** The text of a formatted story, with the URL [url] on its last line. *)
Definition story_text (story : HNItem.t) (url : string) : string :=
  bytes [240; 159; 147; 176]%nat +:+ " "
  +:+ or_else (HNItem.title story) "No title"
  +:+ newline +:+ "   " +:+ bytes [240; 159; 145; 164]%nat +:+ " "
  +:+ or_else (Some (HNItem.by_ story)) "unknown"
  +:+ " | " +:+ bytes [226; 172; 134; 239; 184; 143]%nat
  +:+ " " +:+ toString (number_or (HNItem.score story) (Num 0)) +:+ " points | "
  +:+ bytes [240; 159; 146; 172]%nat
  +:+ " " +:+ toString (number_or (HNItem.descendants story) (Num 0))
  +:+ " comments"
  +:+ newline +:+ "   " +:+ bytes [240; 159; 148; 151]%nat +:+ " " +:+ url.

(** From [w] to [w'] exactly the requests [reqs] were issued, in that
    order, in an unchanged environment. *)
Definition issues (w w' : World) (reqs : list Request) : Prop :=
  requests w' = (requests w ++ reqs)%list
  /\ server w' = server w
  /\ clock w' = clock w.

(** ** Environments the examples run in *)

(** A decoder that rejects every body. *)
Definition undecodable {T} : FromJSON T :=
  fun _ => Throw (JsError "Unexpected end of JSON input").

Definition no_env : string -> option string := fun _ => None.

Definition env_with_key (key : string) : string -> option string :=
  fun name => if String.eqb name "FIRECRAWL_API_KEY" then Some key else None.

(** No request gets through. *)
Definition offline : World :=
  {| server := fun _ _ => Throw (JsError "network unreachable");
     clock := fun _ => 1700000000000;
     requests := [];
     console := [] |}.

(** A decoder that reads the identifiers 1, 2, 3 off every body. *)
Definition three_ids : FromJSON (list number) :=
  fun _ => Normal [Num 1; Num 2; Num 3].

(** A decoder that reads the identifiers 1 to 60 off every body. *)
Definition sixty_ids : FromJSON (list number) :=
  fun _ => Normal (map (fun n => Num (Z.of_nat n)) (seq 1 60)).

(** A story without a URL, and the same story with one. *)
Definition dropbox_story : HNItem.t :=
  HNItem.mk (Num 8863) ItemType.story "dhouston" (Num 1175714200)
    None None None None None None
    (Some (Num 111)) (Some "My YC app: Dropbox") None (Some (Num 71)).

Definition linked_story : HNItem.t :=
  HNItem.mk (Num 8863) ItemType.story "dhouston" (Num 1175714200)
    None None None None None
    (Some "https://www.getdropbox.com/u/2/screencast.html")
    (Some (Num 111)) (Some "My YC app: Dropbox") None (Some (Num 71)).

(** A decoder that reads the same story off every body. *)
Definition one_story : FromJSON (option HNItem.t) :=
  fun _ => Normal (Some dropbox_story).

(** A decoder that reads a story with no usable time off every body. *)
Definition timeless_story : FromJSON (option HNItem.t) :=
  fun _ =>
    Normal (Some (HNItem.mk (Num 1) ItemType.story "pg" NaN
                    None None None None None None None (Some "Untimed") None
                    None)).


(** Every request is answered with the given status and body. *)
Definition answering (code : Z) (body : string) : World :=
  {| server := fun _ _ => Normal {| status := code; payload := Normal body |};
     clock := fun _ => 1700000000000;
     requests := [];
     console := [] |}.

(* ===================================================================== *)
(** * Properties of the runtime                                           *)
(* ===================================================================== *)

(** stdpp seals [String.append] against [simpl]; the proofs below compute
    with it. *)
#[local] Arguments String.append !_ _ / : simpl nomatch.

Section Strings.

Lemma string_prefix_app (p s : string) : String.prefix p (p +:+ s) = true.
Proof.
  induction p as [|a p IH]; simpl.
  - destruct s; reflexivity.
  - destruct (ascii_dec a a) as [_|Hne]; [exact IH | congruence].
Qed.

Lemma includes_prefix (s needle : string) :
  String.prefix needle s = true -> includes s needle = true.
Proof. intros Hp. destruct s; cbn [includes]; rewrite Hp; reflexivity. Qed.

Lemma includes_cons (c : ascii) (s needle : string) :
  includes s needle = true -> includes (String c s) needle = true.
Proof. intros Hi. cbn [includes]. rewrite Hi. apply orb_true_r. Qed.

(** A string occurs in whatever is built around it. *)
Lemma includes_app (a b c : string) : includes (a +:+ b +:+ c) b = true.
Proof.
  induction a as [|x a IH]; cbn [String.append].
  - apply includes_prefix, string_prefix_app.
  - apply includes_cons, IH.
Qed.

Lemma includes_here (b c : string) : includes (b +:+ c) b = true.
Proof. apply includes_prefix, string_prefix_app. Qed.

Lemma includes_refl (b : string) : includes b b = true.
Proof.
  apply includes_prefix.
  induction b as [|x b IH]; cbn; [reflexivity|].
  destruct (ascii_dec x x) as [_|Hne]; [exact IH | congruence].
Qed.

Lemma includes_skip (a s needle : string) :
  includes s needle = true -> includes (a +:+ s) needle = true.
Proof.
  intros Hi. induction a as [|x a IH]; cbn [String.append]; [exact Hi|].
  apply includes_cons, IH.
Qed.

Lemma app_assoc_s (a b c : string) : (a +:+ b) +:+ c = a +:+ b +:+ c.
Proof. induction a as [|x a IH]; simpl; [reflexivity | now rewrite IH]. Qed.

End Strings.

(** Finds a chunk of a concatenation. *)
Ltac solve_includes :=
  rewrite ?app_assoc_s;
  repeat first [ apply includes_here | apply includes_refl | apply includes_skip ].

(** ** [parseInt] reads back what [toString] writes *)

Ltac eval_digit :=
  match goal with
  | |- context [digit_value 10 ?c] =>
      let v := eval vm_compute in (digit_value 10 c) in
      change (digit_value 10 c) with v
  end.

Section ParseInt.

Lemma parse_digits_acc (d : uint) (p : positive) :
  parse_digits 10 (NilEmpty.string_of_uint d) (Some (Npos p))
  = Some (Npos (Pos.of_uint_acc d p)).
Proof.
  revert p.
  induction d as [|d IH|d IH|d IH|d IH|d IH|d IH|d IH|d IH|d IH|d IH];
    intros p;
    cbn [NilEmpty.string_of_uint parse_digits Pos.of_uint_acc];
    [reflexivity
    | eval_digit; cbn [default from_option id N.mul N.add];
      rewrite <- IH; f_equal; f_equal; f_equal; lia ..].
Qed.

Lemma parse_digits_zero (d : uint) :
  parse_digits 10 (NilEmpty.string_of_uint d) (Some 0%N)
  = Some (Pos.of_uint d).
Proof.
  induction d as [|d IH|d IH|d IH|d IH|d IH|d IH|d IH|d IH|d IH|d IH];
    cbn [NilEmpty.string_of_uint parse_digits Pos.of_uint];
    [reflexivity
    | eval_digit; cbn [default from_option id N.mul N.add]; exact IH
    | eval_digit; cbn [default from_option id N.mul N.add];
      apply parse_digits_acc ..].
Qed.

Lemma parse_digits_start (d : uint) :
  d <> Nil ->
  parse_digits 10 (NilEmpty.string_of_uint d) None = Some (Pos.of_uint d).
Proof.
  intros Hd. rewrite <- parse_digits_zero.
  destruct d; [congruence | reflexivity ..].
Qed.

(** A decimal numeral has no hexadecimal prefix to strip. *)
Lemma no_hex_prefix (d : uint) :
  let s := NilEmpty.string_of_uint d in
  match s with
  | String c0 (String c1 r) =>
      if Ascii.eqb c0 "0" && (Ascii.eqb c1 "x" || Ascii.eqb c1 "X")
      then (16%N, r) else (10%N, s)
  | _ => (10%N, s)
  end = (10%N, s).
Proof.
  destruct d as [|d|d|d|d|d|d|d|d|d|d]; cbn [NilEmpty.string_of_uint];
    try reflexivity; destruct d; reflexivity.
Qed.

Lemma parseInt_numeral (d : uint) :
  d <> Nil ->
  parseInt (NilEmpty.string_of_uint d)
  = Num (Z.of_N (nearest_double (Pos.of_uint d)))
  /\ parseInt (String "-" (NilEmpty.string_of_uint d))
     = Num (- Z.of_N (nearest_double (Pos.of_uint d))).
Proof.
  intros Hd. pose proof (no_hex_prefix d) as Hhex.
  pose proof (parse_digits_start d Hd) as Hp.
  cbn zeta in Hhex. split.
  - unfold parseInt.
    assert (Ht : trimStart (NilEmpty.string_of_uint d)
                 = NilEmpty.string_of_uint d).
    { destruct d; [congruence | reflexivity ..]. }
    rewrite Ht.
    assert (Hs : match NilEmpty.string_of_uint d with
                 | String c r =>
                     if Ascii.eqb c "-" then (-1, r)
                     else if Ascii.eqb c "+" then (1, r)
                     else (1, NilEmpty.string_of_uint d)
                 | EmptyString => (1, NilEmpty.string_of_uint d)
                 end = (1, NilEmpty.string_of_uint d)).
    { destruct d; reflexivity. }
    rewrite Hs, Hhex, Hp. f_equal; lia.
  - unfold parseInt.
    change (trimStart (String "-" ?s)) with (String "-" s).
    cbn [Ascii.eqb Bool.eqb].
    rewrite Hhex, Hp. f_equal; lia.
Qed.

Lemma nearest_double_exact (n : N) :
  (n <= 9007199254740992)%N -> nearest_double n = n.
Proof.
  intros Hn. unfold nearest_double.
  destruct (N.leb_spec n 9007199254740992); [reflexivity | lia].
Qed.

(** Beyond 2^53 the result has 53 significant bits, lies within half a
    unit in the last place of the integer, and is the even one of the two
    candidates at a tie. *)
Lemma nearest_double_rounds (n : N) :
  (9007199254740992 < n)%N ->
  let ulp := (2 ^ (N.size n - 53))%N in
  exists m : N,
    (nearest_double n = m * ulp
     /\ 2 ^ 52 <= m <= 2 ^ 53
     /\ 2 * nearest_double n <= 2 * n + ulp
     /\ 2 * n <= 2 * nearest_double n + ulp
     /\ (2 * nearest_double n = 2 * n + ulp
         \/ 2 * n = 2 * nearest_double n + ulp ->
         N.even m = true))%N.
Proof.
  intros Hn ulp. unfold nearest_double.
  destruct (N.leb_spec n 9007199254740992) as [Hle|_]; [lia|].
  assert (Hlt : (n < 2 ^ N.size n)%N) by apply N.size_gt.
  assert (Hge : (2 ^ N.size n <= 2 * n + 1)%N).
  { rewrite <- N.succ_double_spec. apply N.size_le. }
  assert (Hsize : (53 < N.size n)%N).
  { destruct (N.lt_ge_cases 53 (N.size n)) as [H|H]; [exact H|].
    assert ((2 ^ N.size n <= 2 ^ 53)%N) by (apply N.pow_le_mono_r; lia).
    change (2 ^ 53)%N with 9007199254740992%N in *. lia. }
  set (shift := (N.size n - 53)%N) in *.
  assert (Hshift : N.size n = (shift + 53)%N) by lia.
  assert (Hs1 : shift = N.succ (shift - 1)) by lia.
  rewrite !N.shiftl_mul_pow2, N.shiftr_div_pow2, N.mul_1_l.
  fold ulp.
  assert (Hulp : ulp = (2 * 2 ^ (shift - 1))%N).
  { unfold ulp. rewrite Hs1 at 1. apply N.pow_succ_r'. }
  set (half := (2 ^ (shift - 1))%N) in *.
  assert (Hhalf : (0 < half)%N) by (apply N.neq_0_lt_0, N.pow_nonzero; lia).
  assert (Hpow : (2 ^ N.size n = ulp * 2 ^ 53)%N).
  { rewrite Hshift. apply N.pow_add_r. }
  change (2 ^ 53)%N with 9007199254740992%N in *.
  change (2 ^ 52)%N with 4503599627370496%N.
  pose proof (N.div_mod n ulp ltac:(lia)) as Hdiv.
  pose proof (N.mod_lt n ulp ltac:(lia)) as Hmod.
  set (q := (n / ulp)%N) in *. set (r := (n mod ulp)%N) in *.
  assert (Hq : (4503599627370496 <= q < 9007199254740992)%N) by nia.
  assert (Hr : (n - q * ulp)%N = r) by lia.
  rewrite Hr.
  destruct (N.ltb_spec half r) as [Hgt|Hngt]; cbn [orb].
  - exists (q + 1)%N. split; [reflexivity|]. split; [lia|].
    split; [nia|]. split; [nia|]. intros [H|H]; nia.
  - destruct (N.eqb_spec r half) as [Heq|Hne]; cbn [andb].
    + destruct (N.odd q) eqn:Hodd.
      * exists (q + 1)%N. split; [reflexivity|]. split; [lia|].
        split; [nia|]. split; [nia|]. intros _.
        rewrite N.even_add, <- N.negb_odd, Hodd. reflexivity.
      * exists q. split; [reflexivity|]. split; [lia|].
        split; [nia|]. split; [nia|]. intros _.
        rewrite <- N.negb_odd, Hodd. reflexivity.
    + exists q. split; [reflexivity|]. split; [lia|].
      split; [nia|]. split; [nia|]. intros [H|H]; nia.
Qed.

(** Up to 2^53 in absolute value, where every integer is a Number. *)
Lemma parseInt_toString (z : Z) :
  Z.abs z <= 9007199254740992 -> parseInt (toString (Num z)) = Num z.
Proof.
  intros Hz.
  assert (Hs : forall p,
             NilZero.string_of_uint (Pos.to_uint p)
             = NilEmpty.string_of_uint (Pos.to_uint p)).
  { intros p. pose proof (Unsigned.to_uint_nonnil p) as Hnil.
    unfold NilZero.string_of_uint.
    destruct (Pos.to_uint p); [congruence | reflexivity ..]. }
  destruct z as [|p|p]; [reflexivity | |];
    cbn [toString Z.to_int NilZero.string_of_int]; rewrite Hs.
  - rewrite (proj1 (parseInt_numeral _ (Unsigned.to_uint_nonnil p))).
    rewrite Unsigned.of_to, nearest_double_exact by lia. reflexivity.
  - rewrite (proj2 (parseInt_numeral _ (Unsigned.to_uint_nonnil p))).
    rewrite Unsigned.of_to, nearest_double_exact by lia. reflexivity.
Qed.

End ParseInt.

(** ** The runtime on a few inputs *)

Example parseInt_examples :
  parseInt "123" = Num 123
  /\ parseInt "  42abc" = Num 42
  /\ parseInt "-7" = Num (-7)
  /\ parseInt "0x1F" = Num 31
  /\ parseInt "abc" = NaN
  /\ parseInt EmptyString = NaN.
Proof. repeat split. Qed.

Example parseInt_rounds_beyond_2_53 :
  parseInt "9007199254740992" = Num 9007199254740992
  /\ parseInt "9007199254740993" = Num 9007199254740992
  /\ parseInt "9007199254740995" = Num 9007199254740996
  /\ parseInt "-9007199254740993" = Num (-9007199254740992)
  /\ parseInt "123456789012345678901" = Num 123456789012345683968
  /\ parseInt "0x20000000000001" = Num 9007199254740992.
Proof. repeat split; vm_compute; reflexivity. Qed.

Example slice0_examples :
  slice0 [Num 1; Num 2; Num 3] (Num 2) = [Num 1; Num 2]
  /\ slice0 [Num 1; Num 2; Num 3] (Num 5) = [Num 1; Num 2; Num 3]
  /\ slice0 [Num 1; Num 2; Num 3] (Num 0) = []
  /\ slice0 [Num 1; Num 2; Num 3] (Num (-1)) = [Num 1; Num 2]
  /\ slice0 [Num 1; Num 2; Num 3] (Num (-5)) = []
  /\ slice0 [Num 1; Num 2; Num 3] NaN = [].
Proof. repeat split. Qed.

Example search_request_example :
  req_url (search_request "rust lang" None (Some "points>100"))
  = "https://hn.algolia.com/api/v1/search?query=rust+lang&tags=story&hitsPerPage=30&numericFilters=points%3E100"
  /\ req_url (search_request "ai" (Some "comment") None)
     = "https://hn.algolia.com/api/v1/search?query=ai&tags=comment&hitsPerPage=30".
Proof. split; reflexivity. Qed.

Example item_request_example :
  req_url (item_request (Num 8863))
  = "https://hacker-news.firebaseio.com/v0/item/8863.json".
Proof. reflexivity. Qed.

(* ===================================================================== *)
(** * The [fetch_article] tool and [scrapeUrl]                            *)
(* ===================================================================== *)

Section ToolProperties.
Context {scrape_json : FromJSON FirecrawlScrapeResult}.

Lemma key_missing_falsy (env : string -> option string) :
  key_missing env <-> truthy (FIRECRAWL_API_KEY env) = false.
Proof.
  unfold key_missing, FIRECRAWL_API_KEY, or_else.
  destruct (env "FIRECRAWL_API_KEY") as [[|c key]|]; cbn.
  - split; [reflexivity | now right].
  - split; [intros [Hk|Hk]; discriminate | discriminate].
  - split; [reflexivity | now left].
Qed.

Lemma fetch_article_key_check (env : string -> option string)
    (input : Input.t) (w : World) :
  truthy (FIRECRAWL_API_KEY env) = false ->
  fetchArticleTool env input w
  = (Normal (JSON_stringify (Obj [("error", Str KEY_NOT_SET)])), w).
Proof.
  intros Hk. unfold fetchArticleTool, try_catch. rewrite Hk. reflexivity.
Qed.

Lemma fetch_article_guard (env : string -> option string)
    (input : Input.t) (w : World) :
  truthy (FIRECRAWL_API_KEY env) = true ->
  is_discussion_page (Input.url input) = true ->
  fetchArticleTool env input w
  = (Normal (JSON_stringify
               (Obj [("url", Str (Input.url input));
                     ("story_title", optional Str (Input.story_title input));
                     ("note", Str DISCUSSION_NOTE)])), w).
Proof.
  intros Hk Hd. unfold fetchArticleTool, try_catch.
  rewrite Hk. cbn [negb]. unfold is_discussion_page in Hd. rewrite Hd.
  reflexivity.
Qed.

Lemma discussion_reply_mentions (url : string) (story_title : option string) :
  let out := JSON_stringify
               (Obj [("url", Str url);
                     ("story_title", optional Str story_title);
                     ("note", Str DISCUSSION_NOTE)]) in
  mentions out url = true /\ mentions out DISCUSSION_NOTE = true.
Proof.
  unfold mentions, JSON_stringify.
  cbn [SerializeJSONProperty omap list_omap snd fst].
  destruct story_title;
    cbn -[QuoteJSONString String.append includes DISCUSSION_NOTE];
    split; solve_includes.
Qed.

Lemma fetch_article_discussion_no_call (env : string -> option string)
    (input : Input.t) (w : World) :
  is_discussion_page (Input.url input) = true ->
  no_network_call w (fetchArticleTool env input w).
Proof.
  intros Hd. destruct (truthy (FIRECRAWL_API_KEY env)) eqn:Hk.
  - rewrite (fetch_article_guard env input w Hk Hd). reflexivity.
  - rewrite (fetch_article_key_check env input w Hk). reflexivity.
Qed.

(** C2. Whatever the URL, a [fetch_article] call made while the Firecrawl
    key is missing or empty returns the JSON text of an object whose only
    property is [error], and issues no request: the world is left as it
    was. *)
Theorem fetch_article_without_key (env : string -> option string)
    (input : Input.t) (w : World) :
  key_missing env ->
  let r := fetchArticleTool env input w in
  result_of r = Normal (JSON_stringify (Obj [("error", Str KEY_NOT_SET)]))
  /\ get "error" (Obj [("error", Str KEY_NOT_SET)]) = Some (Str KEY_NOT_SET)
  /\ no_network_call w r
  /\ world_after r = w.
Proof.
  intros Hk r. subst r. apply key_missing_falsy in Hk.
  rewrite (fetch_article_key_check env input w Hk).
  unfold no_network_call. repeat split.
Qed.

(** C1, as the code has it. A call whose URL matches the discussion-page
    pattern never issues a request, whatever the key. With a key set, the
    reply is the JSON text of [{url, story_title, note}] and so carries
    the original URL and the note; with the key missing or empty, the key
    check comes first and the reply is the key error. *)
Theorem fetch_article_discussion_page (env : string -> option string)
    (input : Input.t) (w : World) :
  is_discussion_page (Input.url input) = true ->
  let r := fetchArticleTool env input w in
  no_network_call w r
  /\ (truthy (FIRECRAWL_API_KEY env) = true ->
      result_of r
      = Normal (JSON_stringify
                  (Obj [("url", Str (Input.url input));
                        ("story_title", optional Str (Input.story_title input));
                        ("note", Str DISCUSSION_NOTE)]))
      /\ answers_with_url_and_note r (Input.url input))
  /\ (key_missing env ->
      let payload := Obj [("error", Str KEY_NOT_SET)] in
      result_of r = Normal (JSON_stringify payload)
      /\ get "url" payload = None /\ get "note" payload = None).
Proof.
  intros Hd r. subst r.
  destruct (truthy (FIRECRAWL_API_KEY env)) eqn:Hk.
  - rewrite (fetch_article_guard env input w Hk Hd).
    split; [reflexivity|]. split.
    + intros _. split; [reflexivity|].
      eexists; split; [reflexivity|]. apply discussion_reply_mentions.
    + intros Hm. apply key_missing_falsy in Hm. congruence.
  - rewrite (fetch_article_key_check env input w Hk).
    split; [reflexivity|]. split; [discriminate|]. intros _. repeat split.
Qed.

(** The first thing [scrapeUrl] does is the POST. *)
Lemma scrapeUrl_requests (url apiKey : string)
    (options : FirecrawlScrapeOptions.t) (w : World) :
  requests (world_after (scrapeUrl url apiKey options w))
  = (requests w ++ [scrape_request url apiKey options])%list.
Proof.
  unfold scrapeUrl, try_catch, bind, fetch, world_after. cbn.
  destruct (server w (requests w) (scrape_request url apiKey options))
    as [response|e]; cbn; [|reflexivity].
  destruct (ok response); cbn.
  - unfold json, bind, text.
    destruct (payload response) as [body|e]; cbn; [|reflexivity].
    destruct (JSON_parse body); reflexivity.
  - unfold text. destruct (payload response); reflexivity.
Qed.

(** C10. [scrapeUrl] itself checks neither the URL nor the key: for every
    URL, key and options it issues exactly one request, the POST to the
    scrape endpoint carrying the key as bearer token; so it does for a
    discussion-page URL and the empty key, where the tool short-circuits. *)
Theorem scrapeUrl_always_posts (url apiKey : string)
    (options : FirecrawlScrapeOptions.t) (w : World) :
  let req := scrape_request url apiKey options in
  requests (world_after (scrapeUrl url apiKey options w))
  = (requests w ++ [req])%list
  /\ req_method req = "POST"
  /\ req_url req = "https://api.firecrawl.dev/v2/scrape"
  /\ req_headers req
     = [("Authorization", "Bearer " +:+ apiKey);
        ("Content-Type", "application/json")]
  /\ ~ no_network_call w (scrapeUrl url apiKey options w)
  /\ (is_discussion_page url = true ->
      forall env input,
        Input.url input = url ->
        no_network_call w (fetchArticleTool env input w)).
Proof.
  intros req. subst req. split; [apply scrapeUrl_requests|].
  repeat split.
  - unfold no_network_call. rewrite scrapeUrl_requests.
    intros Heq. apply (f_equal length) in Heq.
    rewrite length_app in Heq. cbn in Heq. lia.
  - intros Hd env input Hu. subst url.
    apply fetch_article_discussion_no_call, Hd.
Qed.

End ToolProperties.

(* ===================================================================== *)
(** * The clients of [hackernews-api.ts]                                  *)
(* ===================================================================== *)

(** Runs an [async] body symbolically: unfolds the monad and splits on
    every outcome the environment can produce. *)
Ltac run_async :=
  repeat (unfold try_catch, bind, fetch, json, text, ret, throw, console_error,
            write_console, result_of, world_after in *;
          cbn in *; try case_match; simplify_eq/=);
  try reflexivity.

Section ClientProperties.
Context {item_json : FromJSON (option HNItem.t)}
        {ids_json : FromJSON (list number)}
        {search_json : FromJSON AlgoliaSearchResult}
        {scrape_json : FromJSON FirecrawlScrapeResult}.

(** ** What each call returns, by cases on what the environment does *)

Lemma scrapeUrl_result (url apiKey : string)
    (options : FirecrawlScrapeOptions.t) (w : World) :
  result_of (scrapeUrl url apiKey options w)
  = Normal (scrape_outcome
              (server w (requests w) (scrape_request url apiKey options))).
Proof. unfold scrapeUrl, scrape_outcome. run_async. Qed.

Lemma getItem_result (id : number) (w : World) :
  result_of (getItem id w)
  = Normal
      match server w (requests w) (item_request id) with
      | Throw _ => None
      | Normal response =>
          if ok response then
            match payload response with
            | Normal body =>
                match JSON_parse body with
                | Normal item => item
                | Throw _ => None
                end
            | Throw _ => None
            end
          else None
      end.
Proof. unfold getItem, item_request. run_async. Qed.

Lemma getTopStories_result (limit : option number) (w : World) :
  result_of (getTopStories limit w)
  = Normal match upstream_feed topstories w with
           | Some ids => slice0 ids (default (Num 30) limit)
           | None => []
           end.
Proof. unfold getTopStories, upstream_feed, topstories. run_async. Qed.

Lemma getNewStories_result (limit : option number) (w : World) :
  result_of (getNewStories limit w)
  = Normal match upstream_feed newstories w with
           | Some ids => slice0 ids (default (Num 30) limit)
           | None => []
           end.
Proof. unfold getNewStories, upstream_feed, newstories. run_async. Qed.

Lemma getBestStories_result (limit : option number) (w : World) :
  result_of (getBestStories limit w)
  = Normal match upstream_feed beststories w with
           | Some ids => slice0 ids (default (Num 30) limit)
           | None => []
           end.
Proof. unfold getBestStories, upstream_feed, beststories. run_async. Qed.

Lemma searchStories_result (query : string) (tags numericFilters : option string)
    (w : World) :
  result_of (searchStories query tags numericFilters w)
  = Normal
      match server w (requests w) (search_request query tags numericFilters) with
      | Throw _ => {| hits := []; nbHits := Num 0 |}
      | Normal response =>
          if ok response then
            match payload response with
            | Normal body =>
                match JSON_parse body with
                | Normal found => found
                | Throw _ => {| hits := []; nbHits := Num 0 |}
                end
            | Throw _ => {| hits := []; nbHits := Num 0 |}
            end
          else {| hits := []; nbHits := Num 0 |}
      end.
Proof. unfold searchStories, search_request. run_async. Qed.

Lemma faulty_no_feed (req : Request) (w : World) :
  faulty w req = true -> upstream_feed req w = None.
Proof.
  unfold faulty, upstream_feed.
  destruct (server w (requests w) req) as [response|e]; [|reflexivity].
  destruct (ok response); [discriminate | reflexivity].
Qed.

(** ** [slice(0, limit)] *)

Lemma slice0_nonneg {A} (l : list A) (N : Z) :
  0 <= N -> slice0 l (Num N) = take (Z.to_nat N) l.
Proof.
  intros HN. unfold slice0.
  destruct (Z.ltb_spec N 0) as [Hlt|_]; [lia|].
  destruct (Z.min_spec N (Z.of_nat (length l))) as [[Hle ->]|[Hle ->]].
  - reflexivity.
  - rewrite Nat2Z.id. rewrite !take_ge by lia. reflexivity.
Qed.

Lemma slice0_negative {A} (l : list A) (n : Z) :
  n < 0 -> slice0 l (Num n) = take (length l - Z.to_nat (- n)) l.
Proof.
  intros Hn. unfold slice0.
  destruct (Z.ltb_spec n 0) as [_|Hge]; [|lia].
  f_equal. lia.
Qed.

Lemma truncates_slice0 (N : Z) (feed : option (list number)) :
  0 <= N ->
  truncates N feed
    (Normal match feed with Some ids => slice0 ids (Num N) | None => [] end).
Proof.
  intros HN. eexists; split; [reflexivity|].
  destruct feed as [ids|]; cbn; [|split; [lia | reflexivity]].
  rewrite slice0_nonneg by exact HN. rewrite length_take.
  split; [lia|]. split; [reflexivity | lia].
Qed.

Lemma drops_last_slice0 (n : Z) (feed : option (list number)) :
  n < 0 ->
  drops_last n feed
    (Normal match feed with Some ids => slice0 ids (Num n) | None => [] end).
Proof.
  intros Hn. eexists; split; [reflexivity|].
  destruct feed as [ids|]; [|reflexivity].
  rewrite slice0_negative by exact Hn.
  split; [reflexivity|]. split.
  - exists (drop (length ids - Z.to_nat (- n)) ids).
    rewrite take_drop. split; [reflexivity|].
    rewrite length_drop. lia.
  - intros Hlt Hnil. apply (f_equal length) in Hnil.
    rewrite length_take in Hnil. cbn in Hnil. lia.
Qed.

(** C5, as the code has it. For every limit [N >= 0] (so for
    [0 <= N <= 50]) each of the three list fetches returns the first [N]
    identifiers of its feed, in feed order: at most [N] of them and at
    most as many as the feed has; when the fetch fails it returns the
    empty list. *)
Theorem list_fetch_truncates (N : Z) (w : World) :
  0 <= N ->
  truncates N (upstream_feed topstories w)
    (result_of (getTopStories (Some (Num N)) w))
  /\ truncates N (upstream_feed newstories w)
       (result_of (getNewStories (Some (Num N)) w))
  /\ truncates N (upstream_feed beststories w)
       (result_of (getBestStories (Some (Num N)) w)).
Proof.
  intros HN.
  rewrite getTopStories_result, getNewStories_result, getBestStories_result.
  repeat split; apply truncates_slice0, HN.
Qed.

(** C9. For every negative limit [n] each of the three list fetches
    returns its feed without the last [|n|] identifiers (the whole feed
    but those, not the empty list, whenever the feed has more than [|n|]
    entries); when the fetch fails it returns the empty list. *)
Theorem list_fetch_negative_limit (n : Z) (w : World) :
  n < 0 ->
  drops_last n (upstream_feed topstories w)
    (result_of (getTopStories (Some (Num n)) w))
  /\ drops_last n (upstream_feed newstories w)
       (result_of (getNewStories (Some (Num n)) w))
  /\ drops_last n (upstream_feed beststories w)
       (result_of (getBestStories (Some (Num n)) w)).
Proof.
  intros Hn.
  rewrite getTopStories_result, getNewStories_result, getBestStories_result.
  repeat split; apply drops_last_slice0, Hn.
Qed.

(** ** Failures of the scrape call *)

(** C7. When the scrape endpoint answers with a non-success status [S]
    and the body text [B], [scrapeUrl] returns
    [{success: false, error: "Firecrawl API error: S - B"}], an error that
    contains [S] and [B]; status 500 with body [server error] gives the
    error [Firecrawl API error: 500 - server error]. When the transport
    throws an error with message [M], it returns
    [{success: false, error: M}]. *)
Theorem scrapeUrl_failure_results (url apiKey : string)
    (options : FirecrawlScrapeOptions.t) (w : World) :
  let req := scrape_request url apiKey options in
  let r := result_of (scrapeUrl url apiKey options w) in
  (forall (response : Response) (B : string),
      server w (requests w) req = Normal response ->
      ok response = false ->
      payload response = Normal B ->
      let S := toString (Num (status response)) in
      let error := "Firecrawl API error: " +:+ S +:+ " - " +:+ B in
      r = Normal (scrape_failure error)
      /\ includes error S = true /\ includes error B = true)
  /\ (forall M : string,
        server w (requests w) req = Throw (JsError M) ->
        r = Normal (scrape_failure M))
  /\ result_of (scrapeUrl url apiKey options (answering 500 "server error"))
     = Normal (scrape_failure "Firecrawl API error: 500 - server error")
  /\ result_of (scrapeUrl url apiKey options offline)
     = Normal (scrape_failure "network unreachable").
Proof.
  intros req r. subst req r. rewrite !scrapeUrl_result.
  split; [|split; [|split; reflexivity]].
  - intros response B Hanswer Hstatus Hbody S error. subst S error.
    rewrite Hanswer. unfold scrape_outcome. rewrite Hbody, Hstatus.
    split; [reflexivity|]. split; solve_includes.
  - intros M Hfault. rewrite Hfault. reflexivity.
Qed.

(** ** No fault escapes *)

Lemma normal_run {A} (r : Completion A * World) (a : A) :
  result_of r = Normal a -> exists w', r = (Normal a, w').
Proof. destruct r as [c w']. cbn. intros ->. eauto. Qed.

Lemma Promise_all_getItem (ids : list number) (w : World) :
  exists w',
    Promise_all (map (fun id => getItem id) ids) w
    = (Normal (resolutions ids w), w').
Proof.
  revert w. induction ids as [|id ids IH]; intros w;
    cbn [map Promise_all resolutions].
  - eauto.
  - destruct (normal_run _ _ (getItem_result id w)) as [w1 Hrun].
    rewrite Hrun. destruct (IH w1) as [w2 Hall]. rewrite Hall. eauto.
Qed.

Lemma getItems_run (ids : list number) (w : World) :
  exists w',
    getItems ids w = (Normal (filter_not_null (resolutions ids w)), w').
Proof.
  destruct (Promise_all_getItem ids w) as [w' Hall].
  exists w'. unfold getItems, bind. rewrite Hall. reflexivity.
Qed.

Lemma getTodaysTopStories_run (count : option number) (w : World) :
  exists stories w',
    getTodaysTopStories count w
    = (Normal (List.filter (is_recent_story (clock w' (requests w'))) stories),
       w').
Proof.
  unfold getTodaysTopStories, bind.
  destruct (normal_run _ _ (getTopStories_result
                              (Some (default (Num 30) count)) w))
    as [w1 Hids].
  rewrite Hids.
  destruct (getItems_run
              match upstream_feed topstories w with
              | Some ids => slice0 ids (default (Num 30) (Some (default (Num 30) count)))
              | None => []
              end w1) as [w2 Hitems].
  rewrite Hitems. cbn. eauto.
Qed.

(** ** The recency filter *)

Lemma is_recent_story_spec (now : Z) (story : HNItem.t) :
  is_recent_story now story = true -> recent_story now story.
Proof.
  unfold is_recent_story, recent_story, ge.
  intros [Htime Htype]%andb_true_iff.
  destruct (HNItem.time story) as [|t]; [discriminate|].
  exists t. split; [reflexivity|]. split.
  - apply Qle_bool_iff in Htime. exact Htime.
  - destruct (HNItem.type story); (reflexivity || discriminate).
Qed.

Lemma recent_story_milliseconds (now : Z) (story : HNItem.t) :
  recent_story now story ->
  exists t, HNItem.time story = Num t /\ now - 86400 * 1000 <= 1000 * t.
Proof.
  intros (t & Ht & Hle & _). exists t. split; [exact Ht|].
  unfold Qle in Hle. cbn in Hle. lia.
Qed.

(** C3. Every item [getTodaysTopStories] returns is of type [story] and
    has a creation time [time >= now / 1000 - 86400], where [now] is the
    instant [Date.now()] gives the call; in milliseconds,
    [1000 * time >= now - 86400000], and so also for every instant not
    after [now], such as the instant the call was made on a clock that
    does not run backwards. The call always returns. *)
Theorem todays_stories_are_recent_stories (count : option number) (w : World) :
  exists (todays : list HNItem.t) (w' : World),
    getTodaysTopStories count w = (Normal todays, w')
    /\ let now := clock w' (requests w') in
       Forall (recent_story now) todays
       /\ Forall (fun story => HNItem.type story = ItemType.story) todays
       /\ Forall (fun story =>
                    exists t, HNItem.time story = Num t
                      /\ now - 86400 * 1000 <= 1000 * t
                      /\ forall called : Z,
                           called <= now -> called - 86400 * 1000 <= 1000 * t)
            todays.
Proof.
  destruct (getTodaysTopStories_run count w) as (stories & w' & Hrun).
  eexists _, w'. split; [exact Hrun|]. cbn zeta.
  assert (Hall : Forall (recent_story (clock w' (requests w')))
                   (List.filter (is_recent_story (clock w' (requests w')))
                      stories)).
  { clear Hrun. induction stories as [|story stories IH]; cbn; [constructor|].
    destruct (is_recent_story _ story) eqn:Hkeep; [|exact IH].
    constructor; [apply is_recent_story_spec, Hkeep | exact IH]. }
  split; [exact Hall|]. split.
  - eapply Forall_impl; [exact Hall|]. intros story (t & _ & _ & Htype).
    exact Htype.
  - eapply Forall_impl; [exact Hall|]. intros story Hrecent.
    destruct (recent_story_milliseconds _ _ Hrecent) as (t & Ht & Hle).
    exists t. split; [exact Ht|]. split; [exact Hle|]. intros called Hc. lia.
Qed.

(** ** The batch resolver *)

Lemma length_resolutions (ids : list number) (w : World) :
  length (resolutions ids w) = length ids.
Proof.
  revert w. induction ids as [|id ids IH]; intros w; cbn [resolutions length];
    [reflexivity|].
  destruct (getItem id w) as [[item|e] w1]; cbn [length]; now rewrite IH.
Qed.

Lemma length_filter_not_null {A} (rs : list (option A)) :
  (length (filter_not_null rs) + absent rs = length rs)%nat.
Proof.
  unfold absent. induction rs as [|[item|] rs IH]; cbn; lia.
Qed.

Lemma survivors_items {A} (ids : list number) (rs : list (option A)) :
  length rs = length ids ->
  map snd (survivors ids rs) = filter_not_null rs.
Proof.
  revert rs. induction ids as [|id ids IH]; intros [|[item|] rs] Hlen;
    cbn in *; try discriminate; try reflexivity.
  - f_equal. apply IH. lia.
  - apply IH. lia.
Qed.

Lemma survivors_sublist {A} (ids : list number) (rs : list (option A)) :
  map fst (survivors ids rs) `sublist_of` ids.
Proof.
  revert rs. induction ids as [|id ids IH]; intros [|[item|] rs]; cbn.
  - constructor.
  - constructor.
  - constructor.
  - apply sublist_nil_l.
  - apply sublist_skip, IH.
  - apply sublist_cons, IH.
Qed.

(** C4. [getItems] always returns. Of [n] identifiers of which [k]
    resolve to absent it returns [n - k] items, so at most [n - k]: the
    items of the identifiers that resolved, in the order of those
    identifiers in the input; an absent identifier leaves no entry. *)
Theorem getItems_drops_absent_in_order (ids : list number) (w : World) :
  exists (items : list HNItem.t) (w' : World),
    getItems ids w = (Normal items, w')
    /\ let rs := resolutions ids w in
       let n := length ids in
       let k := absent rs in
       length rs = n
       /\ (length items + k = n)%nat
       /\ (length items <= n - k)%nat
       /\ items = map snd (survivors ids rs)
       /\ map fst (survivors ids rs) `sublist_of` ids.
Proof.
  destruct (getItems_run ids w) as [w' Hrun].
  eexists _, w'. split; [exact Hrun|]. cbn zeta.
  pose proof (length_resolutions ids w) as Hlen.
  pose proof (length_filter_not_null (resolutions ids w)) as Hcount.
  split; [exact Hlen|]. split; [lia|]. split; [lia|]. split.
  - symmetry. apply survivors_items, Hlen.
  - apply survivors_sublist.
Qed.

(** ** Every operation degrades instead of throwing *)

Lemma scrape_outcome_fault (w : World) (req : Request) :
  faulty w req = true ->
  exists message,
    scrape_outcome (server w (requests w) req) = scrape_failure message.
Proof.
  unfold faulty, scrape_outcome.
  destruct (server w (requests w) req) as [response|e]; [|eauto].
  intros Hbad%negb_true_iff. rewrite Hbad.
  destruct (payload response); eauto.
Qed.

(** C8. No operation of the retrieval layer throws, whatever the
    environment does: each returns normally, for every input. When the
    transport fails or the status is not a success, [getItem] returns
    [null], the three list fetches return [[]], [searchStories] returns
    [{hits: [], nbHits: 0}] and [scrapeUrl] returns a result with
    [success: false] and an error message. *)
Theorem network_faults_never_escape (w : World) :
  (forall id, exists item w',
      getItem id w = (Normal item, w')
      /\ (faulty w (item_request id) = true -> item = None))
  /\ (forall limit, exists ids w',
        getTopStories limit w = (Normal ids, w')
        /\ (faulty w topstories = true -> ids = []))
  /\ (forall limit, exists ids w',
        getNewStories limit w = (Normal ids, w')
        /\ (faulty w newstories = true -> ids = []))
  /\ (forall limit, exists ids w',
        getBestStories limit w = (Normal ids, w')
        /\ (faulty w beststories = true -> ids = []))
  /\ (forall query tags numericFilters, exists found w',
        searchStories query tags numericFilters w = (Normal found, w')
        /\ (faulty w (search_request query tags numericFilters) = true ->
            found = {| hits := []; nbHits := Num 0 |}))
  /\ (forall url apiKey options, exists result w',
        scrapeUrl url apiKey options w = (Normal result, w')
        /\ (faulty w (scrape_request url apiKey options) = true ->
            success result = false /\ data result = None
            /\ exists message, error result = Some message))
  /\ (forall ids, exists items w', getItems ids w = (Normal items, w'))
  /\ (forall count, exists stories w',
        getTodaysTopStories count w = (Normal stories, w')).
Proof.
  repeat apply conj.
  - intros id.
    destruct (normal_run _ _ (getItem_result id w)) as [w' Hrun].
    eexists _, w'. split; [exact Hrun|]. unfold faulty.
    destruct (server w (requests w) (item_request id)) as [response|e];
      [|reflexivity].
    intros Hbad%negb_true_iff. now rewrite Hbad.
  - intros limit.
    destruct (normal_run _ _ (getTopStories_result limit w)) as [w' Hrun].
    eexists _, w'. split; [exact Hrun|].
    intros Hbad. now rewrite (faulty_no_feed _ _ Hbad).
  - intros limit.
    destruct (normal_run _ _ (getNewStories_result limit w)) as [w' Hrun].
    eexists _, w'. split; [exact Hrun|].
    intros Hbad. now rewrite (faulty_no_feed _ _ Hbad).
  - intros limit.
    destruct (normal_run _ _ (getBestStories_result limit w)) as [w' Hrun].
    eexists _, w'. split; [exact Hrun|].
    intros Hbad. now rewrite (faulty_no_feed _ _ Hbad).
  - intros query tags numericFilters.
    destruct (normal_run _ _ (searchStories_result query tags numericFilters w))
      as [w' Hrun].
    eexists _, w'. split; [exact Hrun|]. unfold faulty.
    destruct (server w (requests w) (search_request query tags numericFilters))
      as [response|e]; [|reflexivity].
    intros Hbad%negb_true_iff. now rewrite Hbad.
  - intros url apiKey options.
    destruct (normal_run _ _ (scrapeUrl_result url apiKey options w))
      as [w' Hrun].
    eexists _, w'. split; [exact Hrun|]. intros Hbad.
    destruct (scrape_outcome_fault w _ Hbad) as [message ->].
    cbn. eauto.
  - intros ids. destruct (getItems_run ids w) as [w' Hrun]. eauto.
  - intros count.
    destruct (getTodaysTopStories_run count w) as (stories & w' & Hrun). eauto.
Qed.

End ClientProperties.

(* ===================================================================== *)
(** * The search-hit mapping                                              *)
(* ===================================================================== *)

(** C6. [algoliaToHNItem] is a function of the hit alone, defined on every
    hit (it takes no world and cannot throw). On the hit
    [{objectID: "123", title: "T", author: "a", points: 5, num_comments: 2,
    created_at_i: 1000}] it gives
    [{id: 123, type: "story", by: "a", title: "T", score: 5, descendants: 2,
    time: 1000}]. In general [id] is [parseInt(objectID)]: the integer [z]
    when [objectID] is the decimal numeral of [z] and [z] is at most 2^53
    in absolute value, and beyond that the nearest Number (the numeral
    [9007199254740993] gives 9007199254740992); [points] becomes [score]
    and [num_comments] becomes [descendants]. *)
Theorem algoliaToHNItem_maps_hit :
  algoliaToHNItem
    {| Hit.objectID := "123"; Hit.title := "T"; Hit.url := None;
       Hit.author := "a"; Hit.points := Num 5; Hit.num_comments := Num 2;
       Hit.created_at_i := Num 1000 |}
  = {| HNItem.id := Num 123; HNItem.type := ItemType.story;
       HNItem.by_ := "a"; HNItem.time := Num 1000;
       HNItem.title := Some "T"; HNItem.url := None;
       HNItem.score := Some (Num 5); HNItem.descendants := Some (Num 2);
       HNItem.text := None; HNItem.dead := None; HNItem.parent := None;
       HNItem.poll := None; HNItem.kids := None; HNItem.parts := None |}
  /\ (forall hit : Hit.t,
        let item := algoliaToHNItem hit in
        HNItem.id item = parseInt (Hit.objectID hit)
        /\ HNItem.type item = ItemType.story
        /\ HNItem.by_ item = Hit.author hit
        /\ HNItem.time item = Hit.created_at_i hit
        /\ HNItem.title item = Some (Hit.title hit)
        /\ HNItem.url item = Hit.url hit
        /\ HNItem.score item = Some (Hit.points hit)
        /\ HNItem.descendants item = Some (Hit.num_comments hit))
  /\ (forall (z : Z) (title : string) (url : option string) (author : string)
        (points num_comments created_at_i : number),
        Z.abs z <= 2 ^ 53 ->
        HNItem.id
          (algoliaToHNItem
             (Hit.mk (toString (Num z)) title url author points num_comments
                created_at_i))
        = Num z)
  /\ (forall (title : string) (url : option string) (author : string)
        (points num_comments created_at_i : number),
        HNItem.id
          (algoliaToHNItem
             (Hit.mk "9007199254740993" title url author points num_comments
                created_at_i))
        = Num 9007199254740992).
Proof.
  split; [reflexivity|]. split; [|split].
  - intros hit. cbn. repeat split.
  - intros z title url author points num_comments created_at_i Hz.
    cbn [algoliaToHNItem HNItem.id Hit.objectID]. apply parseInt_toString.
    change (2 ^ 53) with 9007199254740992 in Hz. exact Hz.
  - intros title url author points num_comments created_at_i.
    vm_compute. reflexivity.
Qed.

(* ===================================================================== *)
(** * The properties at concrete inputs                                   *)
(* ===================================================================== *)

(** C1 fails for the missing key: the key check comes before the
    discussion-page guard, so the reply to a discussion-page URL is the key
    error, which carries neither the URL nor the note. *)
Lemma discussion_page_without_key_gets_key_error :
  let input := Input.mk "https://news.ycombinator.com/item?id=123" None in
  let r := fetchArticleTool (scrape_json := undecodable) no_env input offline in
  is_discussion_page (Input.url input) = true
  /\ key_missing no_env
  /\ result_of r = Normal (JSON_stringify (Obj [("error", Str KEY_NOT_SET)]))
  /\ mentions (JSON_stringify (Obj [("error", Str KEY_NOT_SET)])) (Input.url input)
     = false
  /\ ~ answers_with_url_and_note r (Input.url input).
Proof.
  cbn zeta. split; [reflexivity|]. split; [left; reflexivity|].
  split; [reflexivity|]. split; [vm_compute; reflexivity|].
  intros (out & Hout & Hurl & _).
  vm_compute in Hout. injection Hout as <-.
  vm_compute in Hurl. discriminate.
Qed.

Lemma fetch_article_discussion_page_witness :
  let input := Input.mk "https://news.ycombinator.com/item?id=123" (Some "T") in
  let env := env_with_key "fc-key" in
  is_discussion_page (Input.url input) = true
  /\ (let r := fetchArticleTool (scrape_json := undecodable) env input offline in
      no_network_call offline r
      /\ (truthy (FIRECRAWL_API_KEY env) = true ->
          result_of r
          = Normal (JSON_stringify
                      (Obj [("url", Str (Input.url input));
                            ("story_title", optional Str (Input.story_title input));
                            ("note", Str DISCUSSION_NOTE)]))
          /\ answers_with_url_and_note r (Input.url input))
      /\ (key_missing env ->
          let payload := Obj [("error", Str KEY_NOT_SET)] in
          result_of r = Normal (JSON_stringify payload)
          /\ get "url" payload = None /\ get "note" payload = None)).
Proof.
  split; [reflexivity|].
  apply (fetch_article_discussion_page (scrape_json := undecodable)). reflexivity.
Defined.

Lemma fetch_article_without_key_witness :
  let input := Input.mk "https://example.com/post" None in
  key_missing no_env
  /\ (let r := fetchArticleTool (scrape_json := undecodable) no_env input offline in
      result_of r = Normal (JSON_stringify (Obj [("error", Str KEY_NOT_SET)]))
      /\ get "error" (Obj [("error", Str KEY_NOT_SET)]) = Some (Str KEY_NOT_SET)
      /\ no_network_call offline r
      /\ world_after r = offline).
Proof.
  split; [left; reflexivity|].
  apply (fetch_article_without_key (scrape_json := undecodable)). left; reflexivity.
Defined.

(** C5 fails for a negative limit: with the feed [1, 2, 3] and the limit
    [-1 <= 50] the fetch returns [[1, 2]], which is longer than the limit
    and is not the first [-1] entries. *)
Lemma list_fetch_negative_limit_exceeds_limit :
  let w := answering 200 "[1,2,3]" in
  let r := result_of (getTopStories (ids_json := three_ids) (Some (Num (-1))) w) in
  -1 <= 50
  /\ upstream_feed (ids_json := three_ids) topstories w = Some [Num 1; Num 2; Num 3]
  /\ r = Normal [Num 1; Num 2]
  /\ ~ truncates (-1) (upstream_feed (ids_json := three_ids) topstories w) r.
Proof.
  cbn zeta. split; [lia|]. split; [reflexivity|]. split; [reflexivity|].
  intros (result & Hr & Hlen & _).
  vm_compute in Hr. injection Hr as <-. cbn in Hlen. lia.
Qed.

Lemma list_fetch_truncates_witness :
  let w := answering 200 "[1,2,3]" in
  0 <= 2
  /\ (truncates 2 (upstream_feed (ids_json := three_ids) topstories w)
        (result_of (getTopStories (ids_json := three_ids) (Some (Num 2)) w))
      /\ truncates 2 (upstream_feed (ids_json := three_ids) newstories w)
           (result_of (getNewStories (ids_json := three_ids) (Some (Num 2)) w))
      /\ truncates 2 (upstream_feed (ids_json := three_ids) beststories w)
           (result_of (getBestStories (ids_json := three_ids) (Some (Num 2)) w))).
Proof.
  split; [lia|]. apply (list_fetch_truncates (ids_json := three_ids)). lia.
Defined.

Lemma list_fetch_negative_limit_witness :
  let w := answering 200 "[1,2,3]" in
  -1 < 0
  /\ (drops_last (-1) (upstream_feed (ids_json := three_ids) topstories w)
        (result_of (getTopStories (ids_json := three_ids) (Some (Num (-1))) w))
      /\ drops_last (-1) (upstream_feed (ids_json := three_ids) newstories w)
           (result_of (getNewStories (ids_json := three_ids) (Some (Num (-1))) w))
      /\ drops_last (-1) (upstream_feed (ids_json := three_ids) beststories w)
           (result_of (getBestStories (ids_json := three_ids) (Some (Num (-1))) w))).
Proof.
  split; [lia|]. apply (list_fetch_negative_limit (ids_json := three_ids)). lia.
Defined.

(* ===================================================================== *)
(** * The requests each operation issues                                  *)
(* ===================================================================== *)

Section Requests.
Context {item_json : FromJSON (option HNItem.t)}
        {ids_json : FromJSON (list number)}
        {search_json : FromJSON AlgoliaSearchResult}
        {scrape_json : FromJSON FirecrawlScrapeResult}.

Lemma issues_refl (w : World) : issues w w [].
Proof. unfold issues. rewrite app_nil_r. auto. Qed.

Lemma issues_trans (w w1 w2 : World) (a b : list Request) :
  issues w w1 a -> issues w1 w2 b -> issues w w2 (a ++ b).
Proof.
  intros (Hr1 & Hs1 & Hc1) (Hr2 & Hs2 & Hc2). unfold issues.
  rewrite Hr2, Hr1, Hs2, Hs1, Hc2, Hc1, app_assoc. auto.
Qed.

Lemma getItem_issues (id : number) (w : World) :
  issues w (world_after (getItem id w)) [item_request id].
Proof. unfold issues, getItem, item_request. run_async; auto. Qed.

Lemma getTopStories_issues (limit : option number) (w : World) :
  issues w (world_after (getTopStories limit w)) [topstories].
Proof. unfold issues, getTopStories, topstories. run_async; auto. Qed.

Lemma getNewStories_issues (limit : option number) (w : World) :
  issues w (world_after (getNewStories limit w)) [newstories].
Proof. unfold issues, getNewStories, newstories. run_async; auto. Qed.

Lemma getBestStories_issues (limit : option number) (w : World) :
  issues w (world_after (getBestStories limit w)) [beststories].
Proof. unfold issues, getBestStories, beststories. run_async; auto. Qed.

Lemma searchStories_issues (query : string) (tags numericFilters : option string)
    (w : World) :
  issues w (world_after (searchStories query tags numericFilters w))
    [search_request query tags numericFilters].
Proof. unfold issues, searchStories, search_request. run_async; auto. Qed.

Lemma scrapeUrl_issues (url apiKey : string)
    (options : FirecrawlScrapeOptions.t) (w : World) :
  issues w (world_after (scrapeUrl url apiKey options w))
    [scrape_request url apiKey options].
Proof. unfold issues, scrapeUrl. run_async; auto. Qed.

Lemma Promise_all_getItem_issues (ids : list number) (w : World) :
  issues w (world_after (Promise_all (map (fun id => getItem id) ids) w))
    (map item_request ids).
Proof.
  revert w. induction ids as [|id ids IH]; intros w; cbn [map Promise_all].
  - apply issues_refl.
  - pose proof (getItem_issues id w) as Hfirst.
    destruct (getItem id w) as [c w1]. cbn [world_after snd] in Hfirst.
    specialize (IH w1).
    destruct (Promise_all (map (fun id => getItem id) ids) w1) as [cs w2].
    cbn [world_after snd] in *.
    exact (issues_trans _ _ _ [_] _ Hfirst IH).
Qed.

Lemma getItems_issues (ids : list number) (w : World) :
  issues w (world_after (getItems ids w)) (map item_request ids).
Proof.
  pose proof (Promise_all_getItem_issues ids w) as Hall.
  destruct (Promise_all_getItem ids w) as [w' Hrun].
  unfold getItems, bind. rewrite Hrun in *. exact Hall.
Qed.

Lemma getItems_run_issues (ids : list number) (w : World) :
  exists w',
    getItems ids w = (Normal (filter_not_null (resolutions ids w)), w')
    /\ issues w w' (map item_request ids).
Proof.
  pose proof (getItems_issues ids w) as Hreq.
  destruct (getItems_run ids w) as [w' Hrun]. rewrite Hrun in Hreq.
  exists w'. split; [exact Hrun | exact Hreq].
Qed.

Lemma length_filter_not_null_le {A} (rs : list (option A)) :
  (length (filter_not_null rs) <= length rs)%nat.
Proof. pose proof (length_filter_not_null rs). lia. Qed.

Lemma length_listed (feed : option (list number)) (limit : option number) :
  not_negative limit ->
  Z.of_nat (length (listed feed limit)) <= as_count limit.
Proof.
  unfold not_negative, as_count, listed. intros Hn.
  destruct feed as [ids|]; [|destruct limit as [[|n]|]; cbn; lia].
  destruct limit as [[|n]|]; cbn [default from_option id].
  - unfold slice0. cbn. rewrite length_take. lia.
  - rewrite slice0_nonneg by exact Hn. rewrite length_take. lia.
  - rewrite slice0_nonneg by lia. rewrite length_take. lia.
Qed.

(** The whole run of the recency pipeline: one feed request, one request
    per listed identifier, then the filter. *)
Lemma getTodaysTopStories_trace (count : option number) (w : World) :
  let ids := listed (upstream_feed topstories w) count in
  exists (w1 w' : World),
    getTodaysTopStories count w
    = (Normal (List.filter (is_recent_story (clock w' (requests w')))
                 (filter_not_null (resolutions ids w1))), w')
    /\ issues w w' (topstories :: map item_request ids).
Proof.
  intros ids. subst ids. unfold getTodaysTopStories, bind, listed.
  pose proof (getTopStories_issues (Some (default (Num 30) count)) w) as Hfeed.
  destruct (normal_run _ _ (getTopStories_result
                              (Some (default (Num 30) count)) w))
    as [w1 Hids].
  rewrite Hids in *. cbn [world_after snd default from_option id] in *.
  destruct (getItems_run_issues
              match upstream_feed topstories w with
              | Some ids => slice0 ids (default (Num 30) count)
              | None => []
              end w1) as (w2 & Hitems & Hreq).
  rewrite Hitems. cbn. exists w1, w2. split; [reflexivity|].
  exact (issues_trans _ _ _ [_] _ Hfeed Hreq).
Qed.

(** X1. [getItems] issues exactly one request per identifier, in input
    order, each the GET of that identifier's item: nothing is skipped,
    cached or merged, also not for a repeated or an absent identifier. *)
Theorem getItems_one_request_per_identifier (ids : list number) (w : World) :
  let w' := world_after (getItems ids w) in
  requests w' = (requests w ++ map item_request ids)%list
  /\ length (requests w') = (length (requests w) + length ids)%nat
  /\ (forall i id, ids !! i = Some id ->
        requests w' !! (length (requests w) + i)%nat = Some (item_request id)).
Proof.
  intros w'. subst w'. destruct (getItems_issues ids w) as (Hreq & _ & _).
  rewrite Hreq. split; [reflexivity|]. split.
  - rewrite length_app, length_map. reflexivity.
  - intros i id Hi. rewrite lookup_app_r by lia.
    replace (length (requests w) + i - length (requests w))%nat with i by lia.
    rewrite list_lookup_fmap, Hi. reflexivity.
Qed.

(** X2. With a limit that is not negative, [getTodaysTopStories] returns at
    most that many stories (30 for the omitted limit) and issues one feed
    request followed by at most that many item requests. *)
Theorem todays_stories_within_limit (count : option number) (w : World) :
  not_negative count ->
  exists (todays : list HNItem.t) (ids : list number) (w' : World),
    getTodaysTopStories count w = (Normal todays, w')
    /\ Z.of_nat (length todays) <= as_count count
    /\ requests w' = (requests w ++ topstories :: map item_request ids)%list
    /\ Z.of_nat (length ids) <= as_count count.
Proof.
  intros Hcount.
  destruct (getTodaysTopStories_trace count w) as (w1 & w' & Hrun & Hreq & _).
  pose proof (length_listed (upstream_feed topstories w) count Hcount) as Hlen.
  eexists _, _, w'. split; [exact Hrun|]. split; [|split; [exact Hreq | exact Hlen]].
  pose proof (filter_length_le
                (is_recent_story (clock w' (requests w')))
                (filter_not_null
                   (resolutions (listed (upstream_feed topstories w) count) w1)))
    as Hfilter.
  pose proof (length_filter_not_null_le
                (resolutions (listed (upstream_feed topstories w) count) w1))
    as Hnull.
  rewrite length_resolutions in Hnull. lia.
Qed.

End Requests.

(* ===================================================================== *)
(** * More on the [fetch_article] tool                                    *)
(* ===================================================================== *)

Section ArticleTool.
Context {scrape_json : FromJSON FirecrawlScrapeResult}.

Lemma or_else_truthy (s : option string) (d : string) :
  truthy d = true -> truthy (or_else s d) = true.
Proof.
  intros Hd. unfold or_else. destruct s as [x|]; [|exact Hd].
  destruct (truthy x) eqn:Hx; [exact Hx | exact Hd].
Qed.

Lemma truthy_nonempty (s : string) : truthy s = true -> s <> EmptyString.
Proof. intros Hs ->. discriminate. Qed.

(** With a key and a URL that is no discussion page, the tool logs, scrapes
    once and formats what [scrapeUrl] returned. *)
Lemma fetch_article_scrape_run (env : string -> option string)
    (input : Input.t) (w : World) :
  truthy (FIRECRAWL_API_KEY env) = true ->
  is_discussion_page (Input.url input) = false ->
  let url := Input.url input in
  let story_title := Input.story_title input in
  let req := scrape_request url (FIRECRAWL_API_KEY env) tool_options in
  let result := scrape_outcome (server w (requests w) req) in
  exists w',
    fetchArticleTool env input w
    = (Normal
         match success result, data result with
         | false, _ | true, None =>
             JSON_stringify
               (Obj [("url", Str url);
                     ("story_title", optional Str story_title);
                     ("error",
                      Str (or_else (error result)
                             "Failed to fetch article content"))])
         | true, Some data =>
             JSON_stringify_2
               (Obj [("url", Str url);
                     ("story_title", optional Str story_title);
                     ("content",
                      Str (or_else (FirecrawlData.markdown data)
                             "No content available"));
                     ("metadata",
                      Obj [("title",
                            optional Str
                              (FirecrawlData.metadata data ≫= FirecrawlMetadata.title));
                           ("description",
                            optional Str
                              (FirecrawlData.metadata data
                                 ≫= FirecrawlMetadata.description));
                           ("author",
                            optional Str
                              (FirecrawlData.metadata data
                                 ≫= FirecrawlMetadata.ogSiteName))])])
         end, w')
    /\ issues w w' [req].
Proof.
  intros Hk Hd url story_title req result. subst url story_title req result.
  unfold fetchArticleTool, try_catch, bind at 1.
  rewrite Hk. cbn [negb]. unfold is_discussion_page in Hd. rewrite Hd.
  unfold console_log, write_console, bind at 1.
  set (logged := {| server := server w; clock := clock w;
                    requests := requests w; console := _ |}).
  pose proof (scrapeUrl_issues (Input.url input) (FIRECRAWL_API_KEY env)
                tool_options logged) as Hreq.
  destruct (normal_run _ _ (scrapeUrl_result (Input.url input)
                              (FIRECRAWL_API_KEY env) tool_options logged))
    as [w' Hrun].
  fold tool_options. rewrite Hrun in *. cbn [world_after snd] in Hreq.
  exists w'. split; [|exact Hreq].
  change (server logged (requests logged)) with (server w (requests w)).
  unfold ret.
  generalize (scrape_outcome
                (server w (requests w)
                   (scrape_request (Input.url input) (FIRECRAWL_API_KEY env)
                      tool_options))).
  intros [[] [data|] error]; reflexivity.
Qed.

(** X3. [fetch_article] never throws and issues at most one request: none
    when the key is missing or the URL is a discussion page, and otherwise
    exactly the POST to the scrape endpoint that carries the key as bearer
    token and asks for what [scrapeUrl] asks for by default. *)
Theorem fetch_article_at_most_one_request (env : string -> option string)
    (input : Input.t) (w : World) :
  let key := FIRECRAWL_API_KEY env in
  let req := scrape_request (Input.url input) key tool_options in
  exists (out : string) (w' : World),
    fetchArticleTool env input w = (Normal out, w')
    /\ requests w'
       = (requests w
          ++ if truthy key && negb (is_discussion_page (Input.url input))
             then [req] else [])%list
    /\ req_method req = "POST"
    /\ req_url req = "https://api.firecrawl.dev/v2/scrape"
    /\ req_headers req
       = [("Authorization", "Bearer " +:+ key);
          ("Content-Type", "application/json")]
    /\ req = scrape_request (Input.url input) key FirecrawlScrapeOptions.empty.
Proof.
  intros key req. subst key req.
  destruct (truthy (FIRECRAWL_API_KEY env)) eqn:Hk.
  - destruct (is_discussion_page (Input.url input)) eqn:Hd; cbn [andb negb].
    + rewrite (fetch_article_guard env input w Hk Hd).
      eexists _, w. rewrite app_nil_r. repeat split.
    + destruct (fetch_article_scrape_run env input w Hk Hd)
        as (w' & Hrun & Hreq & _).
      rewrite Hrun. eexists _, w'. repeat split. exact Hreq.
  - rewrite (fetch_article_key_check env input w Hk).
    eexists _, w. cbn [andb]. rewrite app_nil_r. repeat split.
Qed.

(** X4. When the scrape endpoint answers with a fault, [fetch_article]
    replies [{url, story_title, error}] with an error message that is never
    empty; for a non-success response with status [S] and body [B] the
    message is [Firecrawl API error: S - B], as [scrapeUrl] built it. *)
Theorem fetch_article_reports_scrape_fault (env : string -> option string)
    (input : Input.t) (w : World) :
  let url := Input.url input in
  let req := scrape_request url (FIRECRAWL_API_KEY env) tool_options in
  truthy (FIRECRAWL_API_KEY env) = true ->
  is_discussion_page url = false ->
  faulty w req = true ->
  exists message : string,
    result_of (fetchArticleTool env input w)
    = Normal (JSON_stringify
                (Obj [("url", Str url);
                      ("story_title", optional Str (Input.story_title input));
                      ("error", Str message)]))
    /\ message <> EmptyString
    /\ (forall (response : Response) (B : string),
          server w (requests w) req = Normal response ->
          payload response = Normal B ->
          message = "Firecrawl API error: "
                    +:+ toString (Num (status response)) +:+ " - " +:+ B).
Proof.
  intros url req Hk Hd Hbad. subst url req.
  destruct (fetch_article_scrape_run env input w Hk Hd) as (w' & Hrun & _).
  rewrite Hrun. clear Hrun. cbn [result_of fst].
  destruct (scrape_outcome_fault w _ Hbad) as [m Hm]. rewrite Hm.
  cbn [success data error scrape_failure].
  eexists. split; [reflexivity|]. split.
  - apply truthy_nonempty, or_else_truthy. reflexivity.
  - intros response B Hanswer Hbody. unfold faulty in Hbad.
    unfold scrape_outcome in Hm. rewrite Hanswer in Hbad, Hm.
    rewrite Hbody in Hm. apply negb_true_iff in Hbad. rewrite Hbad in Hm.
    injection Hm as <-. reflexivity.
Qed.



Lemma discussion_url_is_discussion_page (id : number) :
  is_discussion_page (discussion_url id) = true.
Proof.
  unfold is_discussion_page.
  change (discussion_url id)
    with ("https://" +:+ "news.ycombinator.com/item" +:+ "?id=" +:+ toString id).
  solve_includes.
Qed.

End ArticleTool.

(* ===================================================================== *)
(** * The search request                                                  *)
(* ===================================================================== *)

Section SearchRequest.
Context {search_json : FromJSON AlgoliaSearchResult}.

Lemma count_char_app (c : ascii) (a b : string) :
  count_char c (a +:+ b) = (count_char c a + count_char c b)%nat.
Proof.
  induction a as [|x a IH]; cbn [String.append count_char]; [reflexivity|].
  rewrite IH. lia.
Qed.

Lemma urlencode_byte_no_separator (c : ascii) :
  count_char "&" (urlencode_byte c) = O /\ count_char "=" (urlencode_byte c) = O.
Proof.
  destruct c as [[] [] [] [] [] [] [] []]; split; reflexivity.
Qed.

Lemma urlencode_no_separator (s : string) :
  count_char "&" (urlencode s) = O /\ count_char "=" (urlencode s) = O.
Proof.
  induction s as [|c s [IHa IHe]]; cbn [urlencode]; [split; reflexivity|].
  rewrite !count_char_app, IHa, IHe.
  destruct (urlencode_byte_no_separator c) as [-> ->]. split; reflexivity.
Qed.

(** X7. Whatever the query, the tags and the numeric filter contain, the
    search request has exactly the parameters [query], [tags] and
    [hitsPerPage], and [numericFilters] when a non-empty filter is given:
    the values are encoded, so none of them can add or cut a parameter.
    [searchStories] issues exactly this one request. *)
Theorem search_request_has_fixed_parameters (query : string)
    (tags numericFilters : option string) (w : World) :
  let req := search_request query tags numericFilters in
  let filters :=
    match numericFilters with
    | Some nf => if truthy nf then 1%nat else O
    | None => O
    end in
  req_url req
  = "https://hn.algolia.com/api/v1/search?query=" +:+ urlencode query
    +:+ "&tags=" +:+ urlencode (default "story" tags) +:+ "&hitsPerPage=30"
    +:+ match numericFilters with
        | Some nf =>
            if truthy nf then "&numericFilters=" +:+ urlencode nf
            else EmptyString
        | None => EmptyString
        end
  /\ count_char "&" (req_url req) = (2 + filters)%nat
  /\ count_char "=" (req_url req) = (3 + filters)%nat
  /\ requests (world_after (searchStories query tags numericFilters w))
     = (requests w ++ [req])%list.
Proof.
  intros req filters. subst req filters.
  split; [|split; [|split]].
  - unfold search_request.
    destruct numericFilters as [nf|]; [destruct (truthy nf)|]; reflexivity.
  - unfold search_request.
    destruct numericFilters as [nf|]; [destruct (truthy nf)|];
      cbn [req_url GET URLSearchParams_toString map join fst snd app];
      rewrite !count_char_app;
      rewrite ?(proj1 (urlencode_no_separator _)); reflexivity.
  - unfold search_request.
    destruct numericFilters as [nf|]; [destruct (truthy nf)|];
      cbn [req_url GET URLSearchParams_toString map join fst snd app];
      rewrite !count_char_app;
      rewrite ?(proj2 (urlencode_no_separator _)); reflexivity.
  - apply searchStories_issues.
Qed.

End SearchRequest.

(* ===================================================================== *)
(** * The [list_hacker_news] tool                                         *)
(* ===================================================================== *)

Section ListToolProperties.
Context {item_json : FromJSON (option HNItem.t)}
        {ids_json : FromJSON (list number)}.

Lemma category_cases (category : string) :
  known_category category
  \/ (String.eqb category "top" = false /\ String.eqb category "new" = false
      /\ String.eqb category "best" = false
      /\ String.eqb category "today" = false).
Proof.
  unfold known_category.
  destruct (String.eqb_spec category "top"); [auto|].
  destruct (String.eqb_spec category "new"); [auto|].
  destruct (String.eqb_spec category "best"); [auto|].
  destruct (String.eqb_spec category "today"); [auto|].
  right. auto.
Qed.

(** For a known category: one feed request, one request per listed
    identifier, no more stories than identifiers. *)
Lemma fetch_stories_trace (category : string) (limit : number) (w : World) :
  known_category category ->
  let ids := listed (upstream_feed (feed_request category) w) (Some limit) in
  exists (stories : list HNItem.t) (w' : World),
    fetch_stories category limit w = (Normal stories, w')
    /\ issues w w' (feed_request category :: map item_request ids)
    /\ (length stories <= length ids)%nat.
Proof.
  intros [-> | [-> | [-> | ->]]] ids; subst ids;
    unfold fetch_stories, feed_request; cbn [String.eqb Ascii.eqb Bool.eqb].
  - unfold bind.
    pose proof (getTopStories_issues (Some limit) w) as Hfeed.
    destruct (normal_run _ _ (getTopStories_result (Some limit) w)) as [w1 Hids].
    rewrite Hids in *. cbn [world_after snd] in Hfeed.
    destruct (getItems_run_issues (listed (upstream_feed topstories w) (Some limit)) w1)
      as (w2 & Hitems & Hreq).
    unfold listed in *. rewrite Hitems. eexists _, w2. split; [reflexivity|].
    split; [exact (issues_trans _ _ _ [_] _ Hfeed Hreq)|].
    etransitivity; [apply length_filter_not_null_le|].
    rewrite length_resolutions. reflexivity.
  - unfold bind.
    pose proof (getNewStories_issues (Some limit) w) as Hfeed.
    destruct (normal_run _ _ (getNewStories_result (Some limit) w)) as [w1 Hids].
    rewrite Hids in *. cbn [world_after snd] in Hfeed.
    destruct (getItems_run_issues (listed (upstream_feed newstories w) (Some limit)) w1)
      as (w2 & Hitems & Hreq).
    unfold listed in *. rewrite Hitems. eexists _, w2. split; [reflexivity|].
    split; [exact (issues_trans _ _ _ [_] _ Hfeed Hreq)|].
    etransitivity; [apply length_filter_not_null_le|].
    rewrite length_resolutions. reflexivity.
  - unfold bind.
    pose proof (getBestStories_issues (Some limit) w) as Hfeed.
    destruct (normal_run _ _ (getBestStories_result (Some limit) w)) as [w1 Hids].
    rewrite Hids in *. cbn [world_after snd] in Hfeed.
    destruct (getItems_run_issues (listed (upstream_feed beststories w) (Some limit)) w1)
      as (w2 & Hitems & Hreq).
    unfold listed in *. rewrite Hitems. eexists _, w2. split; [reflexivity|].
    split; [exact (issues_trans _ _ _ [_] _ Hfeed Hreq)|].
    etransitivity; [apply length_filter_not_null_le|].
    rewrite length_resolutions. reflexivity.
  - destruct (getTodaysTopStories_trace (Some limit) w) as (w1 & w' & Hrun & Hreq).
    rewrite Hrun. eexists _, w'. split; [reflexivity|]. split; [exact Hreq|].
    etransitivity; [apply filter_length_le|].
    etransitivity; [apply length_filter_not_null_le|].
    rewrite length_resolutions. reflexivity.
Qed.

(** The tool replies with [list_reply] of what the [switch] fetched. *)
Lemma listNewsTool_run (input : ListInput.t) (w : World)
    (stories : list HNItem.t) (w' : World) :
  known_category (ListInput.category input) ->
  fetch_stories (ListInput.category input) (effective_limit input) w
  = (Normal stories, w') ->
  listNewsTool input w
  = (Normal (list_reply (ListInput.category input) stories), w').
Proof.
  unfold fetch_stories, listNewsTool, effective_limit, list_reply, try_catch.
  intros [Hc | [Hc | [Hc | Hc]]]; rewrite Hc;
    cbn [String.eqb Ascii.eqb Bool.eqb]; unfold bind; intros Hfetch.
  - destruct (getTopStories _ w) as [[ids|e] w1]; [|discriminate].
    destruct (getItems ids w1) as [[fetched|e] w2]; [|discriminate].
    injection Hfetch as -> ->.
    destruct (format_stories stories 0); reflexivity.
  - destruct (getNewStories _ w) as [[ids|e] w1]; [|discriminate].
    destruct (getItems ids w1) as [[fetched|e] w2]; [|discriminate].
    injection Hfetch as -> ->.
    destruct (format_stories stories 0); reflexivity.
  - destruct (getBestStories _ w) as [[ids|e] w1]; [|discriminate].
    destruct (getItems ids w1) as [[fetched|e] w2]; [|discriminate].
    injection Hfetch as -> ->.
    destruct (format_stories stories 0); reflexivity.
  - destruct (getTodaysTopStories _ w) as [[fetched|e] w1]; [|discriminate].
    injection Hfetch as -> ->.
    destruct (format_stories stories 0); reflexivity.
Qed.

Lemma listNewsTool_unknown (input : ListInput.t) (w : World) :
  String.eqb (ListInput.category input) "top" = false ->
  String.eqb (ListInput.category input) "new" = false ->
  String.eqb (ListInput.category input) "best" = false ->
  String.eqb (ListInput.category input) "today" = false ->
  listNewsTool input w
  = (Normal (JSON_stringify
               (Obj [("error",
                      Str ("Unknown category: " +:+ ListInput.category input))])),
     w).
Proof.
  intros Ht Hn Hb Hd. unfold listNewsTool, try_catch.
  rewrite Ht, Hn, Hb, Hd. reflexivity.
Qed.

Lemma effective_limit_bound (input : ListInput.t) :
  not_negative (ListInput.limit input) ->
  not_negative (Some (effective_limit input))
  /\ as_count (Some (effective_limit input)) <= 50.
Proof.
  unfold not_negative, as_count, effective_limit.
  destruct (ListInput.limit input) as [[|n]|]; cbn; lia.
Qed.

Lemma format_story_valid (story : HNItem.t) (index : nat) :
  valid_time story = true ->
  exists entry,
    format_story story index = Normal entry
    /\ get "rank" entry = Some (Number (Num (Z.of_nat index + 1)))
    /\ get "id" entry = Some (Number (HNItem.id story))
    /\ get "title" entry = Some (Str (or_else (HNItem.title story) "No title")).
Proof.
  unfold valid_time, format_story.
  destruct (toISOString _) as [time|]; [|discriminate].
  intros _. eexists. split; [reflexivity|]. repeat split.
Qed.

Lemma format_stories_valid (stories : list HNItem.t) (index : nat) :
  forallb valid_time stories = true ->
  exists entries,
    format_stories stories index = Normal entries
    /\ length entries = length stories
    /\ forall i entry,
        entries !! i = Some entry ->
        exists story,
          stories !! i = Some story
          /\ get "rank" entry = Some (Number (Num (Z.of_nat (index + i) + 1)))
          /\ get "id" entry = Some (Number (HNItem.id story))
          /\ get "title" entry
             = Some (Str (or_else (HNItem.title story) "No title")).
Proof.
  revert index. induction stories as [|story stories IH]; intros index Hvalid.
  - exists []. split; [reflexivity|]. split; [reflexivity|].
    intros i entry Hi. destruct i; discriminate.
  - cbn [forallb] in Hvalid. apply andb_true_iff in Hvalid as [Hfirst Hrest].
    destruct (format_story_valid story index Hfirst)
      as (entry & Hentry & Hrank & Hid & Htitle).
    destruct (IH (S index) Hrest) as (entries & Hentries & Hlen & Hall).
    exists (entry :: entries). cbn [format_stories].
    rewrite Hentry, Hentries. split; [reflexivity|].
    split; [cbn; now rewrite Hlen|].
    intros [|i] e Hi; cbn in Hi.
    + injection Hi as <-. exists story. rewrite Nat.add_0_r. auto.
    + destruct (Hall i e Hi) as (s' & Hs' & Hr & Hrest').
      exists s'. split; [exact Hs'|].
      replace (index + S i)%nat with (S index + i)%nat by lia. auto.
Qed.

Lemma format_stories_invalid (stories : list HNItem.t) (index : nat) :
  forallb valid_time stories = false ->
  format_stories stories index = Throw (JsError "Invalid time value").
Proof.
  revert index. induction stories as [|story stories IH]; intros index Hbad;
    [discriminate|].
  cbn [forallb format_stories] in *.
  destruct (valid_time story) eqn:Hfirst.
  - destruct (format_story_valid story index Hfirst) as (entry & -> & _).
    rewrite (IH (S index) Hbad). reflexivity.
  - unfold valid_time, format_story in *.
    destruct (toISOString _); [discriminate | reflexivity].
Qed.

Lemma format_story_link (story : HNItem.t) (index : nat) (entry : value) :
  format_story story index = Normal entry ->
  get "url" entry
  = Some (Str (or_else (HNItem.url story) (discussion_url (HNItem.id story)))).
Proof.
  unfold format_story. destruct (toISOString _) as [time|]; [|discriminate].
  intros [= <-]. reflexivity.
Qed.

Lemma format_stories_links (stories : list HNItem.t) (index : nat)
    (entries : list value) :
  format_stories stories index = Normal entries ->
  forall i story,
    stories !! i = Some story ->
    exists entry,
      entries !! i = Some entry
      /\ get "url" entry
         = Some (Str (or_else (HNItem.url story)
                        (discussion_url (HNItem.id story)))).
Proof.
  revert index entries.
  induction stories as [|first stories IH]; intros index entries Hrun i story Hi.
  - destruct i; discriminate.
  - cbn [format_stories] in Hrun.
    destruct (format_story first index) as [entry|e] eqn:Hfirst; [|discriminate].
    destruct (format_stories stories (S index)) as [rest|e] eqn:Hrest;
      [|discriminate].
    injection Hrun as <-. destruct i as [|i]; cbn in Hi |- *.
    + injection Hi as <-. exists entry.
      split; [reflexivity | exact (format_story_link _ _ _ Hfirst)].
    + exact (IH (S index) rest Hrest i story Hi).
Qed.

(** X8. [list_hacker_news] never throws, whatever the input and the
    environment. With a limit that is not negative (or omitted) it issues
    at most 51 requests: one for the feed and at most 50 for items, the
    cap [Math.min(limit, 50)] puts on any larger limit. An unknown
    category issues none. *)
Theorem list_tool_never_throws_and_is_capped (input : ListInput.t) (w : World) :
  exists (out : string) (w' : World),
    listNewsTool input w = (Normal out, w')
    /\ (not_negative (ListInput.limit input) ->
        (length (requests w') <= length (requests w) + 51)%nat)
    /\ (~ known_category (ListInput.category input) ->
        requests w' = requests w).
Proof.
  destruct (category_cases (ListInput.category input))
    as [Hknown | (Ht & Hn & Hb & Hd)].
  - destruct (fetch_stories_trace _ (effective_limit input) w Hknown)
      as (stories & w' & Hfetch & (Hreq & _) & _).
    rewrite (listNewsTool_run input w stories w' Hknown Hfetch).
    eexists _, w'. split; [reflexivity|]. split; [|tauto].
    intros Hlimit.
    destruct (effective_limit_bound input Hlimit) as [Hnn Hcap].
    pose proof (length_listed
                  (upstream_feed (feed_request (ListInput.category input)) w)
                  (Some (effective_limit input)) Hnn) as Hlen.
    rewrite Hreq, length_app. cbn [length]. rewrite length_map. lia.
  - rewrite (listNewsTool_unknown input w Ht Hn Hb Hd).
    eexists _, w. split; [reflexivity|]. split; [lia | reflexivity].
Qed.

(** X9. When the feed request of a known category meets a fault, the tool
    does not report an error: it replies with [count: 0] and no stories,
    as for an empty feed, after that single request. *)
Theorem list_tool_reports_faulty_feed_as_empty (input : ListInput.t) (w : World) :
  let category := ListInput.category input in
  known_category category ->
  faulty w (feed_request category) = true ->
  exists w' : World,
    listNewsTool input w
    = (Normal (JSON_stringify_2
                 (Obj [("category", Str category);
                       ("count", Number (Num 0));
                       ("stories", Arr [])])), w')
    /\ requests w' = (requests w ++ [feed_request category])%list.
Proof.
  intros category Hknown Hbad. subst category.
  destruct (fetch_stories_trace _ (effective_limit input) w Hknown)
    as (stories & w' & Hfetch & (Hreq & _) & Hlen).
  rewrite (faulty_no_feed _ _ Hbad) in Hreq, Hlen. cbn in Hreq, Hlen.
  destruct stories; [|cbn in Hlen; lia].
  rewrite (listNewsTool_run input w [] w' Hknown Hfetch).
  exists w'. split; [reflexivity | exact Hreq].
Qed.

(** X10. When every fetched story has a valid time, the reply lists the
    stories in the order fetched: [count] is their number, and the entry at
    position [i] has rank [i + 1] and the identifier and title of the
    [i]-th story (["No title"] for a missing one). *)
Theorem list_reply_counts_and_ranks (input : ListInput.t) (w : World)
    (stories : list HNItem.t) :
  let category := ListInput.category input in
  known_category category ->
  result_of (fetch_stories category (effective_limit input) w) = Normal stories ->
  forallb valid_time stories = true ->
  exists entries : list value,
    result_of (listNewsTool input w)
    = Normal (JSON_stringify_2
                (Obj [("category", Str category);
                      ("count", Number (Num (Z.of_nat (length stories))));
                      ("stories", Arr entries)]))
    /\ length entries = length stories
    /\ forall i entry,
        entries !! i = Some entry ->
        exists story,
          stories !! i = Some story
          /\ get "rank" entry = Some (Number (Num (Z.of_nat i + 1)))
          /\ get "id" entry = Some (Number (HNItem.id story))
          /\ get "title" entry
             = Some (Str (or_else (HNItem.title story) "No title")).
Proof.
  intros category Hknown Hfetch Hvalid. subst category.
  destruct (normal_run _ _ Hfetch) as [w' Hrun].
  rewrite (listNewsTool_run input w stories w' Hknown Hrun).
  destruct (format_stories_valid stories 0 Hvalid)
    as (entries & Hentries & Hlen & Hall).
  exists entries. unfold list_reply. rewrite Hentries, Hlen.
  split; [reflexivity|]. split; [reflexivity | exact Hall].
Qed.

(** X11. One fetched story whose time is no valid date ([NaN], or beyond
    the range of [Date]) costs the whole listing: the reply is then
    [{error: "Invalid time value"}], with no story in it. *)
Theorem list_reply_fails_on_invalid_time (input : ListInput.t) (w : World)
    (stories : list HNItem.t) :
  let category := ListInput.category input in
  known_category category ->
  result_of (fetch_stories category (effective_limit input) w) = Normal stories ->
  forallb valid_time stories = false ->
  result_of (listNewsTool input w)
  = Normal (JSON_stringify (Obj [("error", Str "Invalid time value")])).
Proof.
  intros category Hknown Hfetch Hbad. subst category.
  destruct (normal_run _ _ Hfetch) as [w' Hrun].
  rewrite (listNewsTool_run input w stories w' Hknown Hrun).
  unfold list_reply. rewrite (format_stories_invalid stories 0 Hbad).
  reflexivity.
Qed.

(** X12. The cap does not hold for a negative limit: [Math.min(n, 50)] is
    [n], so for [n < 0] the tool requests every identifier of the feed but
    the last [|n|], however many those are. *)
Theorem list_tool_negative_limit_is_not_capped (input : ListInput.t)
    (w : World) (n : Z) (ids : list number) :
  let category := ListInput.category input in
  known_category category ->
  ListInput.limit input = Some (Num n) ->
  n < 0 ->
  upstream_feed (feed_request category) w = Some ids ->
  exists (out : string) (w' : World),
    listNewsTool input w = (Normal out, w')
    /\ requests w'
       = (requests w
          ++ feed_request category
             :: map item_request (take (length ids - Z.to_nat (- n)) ids))%list
    /\ length (requests w')
       = (length (requests w) + 1 + (length ids - Z.to_nat (- n)))%nat.
Proof.
  intros category Hknown Hlimit Hn Hfeed. subst category.
  destruct (fetch_stories_trace _ (effective_limit input) w Hknown)
    as (stories & w' & Hfetch & (Hreq & _) & _).
  rewrite (listNewsTool_run input w stories w' Hknown Hfetch).
  eexists _, w'. split; [reflexivity|].
  unfold effective_limit in Hreq. rewrite Hlimit, Hfeed in Hreq.
  cbn [default from_option id Math_min listed] in Hreq.
  rewrite Z.min_l in Hreq by lia. rewrite slice0_negative in Hreq by exact Hn.
  split; [exact Hreq|].
  rewrite Hreq, length_app. cbn [length]. rewrite length_map, length_take. lia.
Qed.

End ListToolProperties.

(* ===================================================================== *)
(** * The links of the listing and the guard of the article tool         *)
(* ===================================================================== *)

Section ListedLinks.
Context {item_json : FromJSON (option HNItem.t)}
        {ids_json : FromJSON (list number)}
        {scrape_json : FromJSON FirecrawlScrapeResult}.

(** X6. When every fetched story has a valid time, the reply of
    [list_hacker_news] has one entry per fetched story, in order, and the
    entry of a story without a URL (missing or empty) carries as [url] the
    link to the story's discussion page. That link matches the guard of
    [fetch_article]: handing it to [fetch_article] never issues a request,
    whatever the key, the title and the state of the world. *)
Theorem story_without_url_links_to_guarded_page (input : ListInput.t)
    (w : World) (stories : list HNItem.t) :
  let category := ListInput.category input in
  known_category category ->
  result_of (fetch_stories category (effective_limit input) w) = Normal stories ->
  forallb valid_time stories = true ->
  exists entries : list value,
    result_of (listNewsTool input w)
    = Normal (JSON_stringify_2
                (Obj [("category", Str category);
                      ("count", Number (Num (Z.of_nat (length stories))));
                      ("stories", Arr entries)]))
    /\ length entries = length stories
    /\ forall i story,
        stories !! i = Some story ->
        HNItem.url story = None \/ HNItem.url story = Some EmptyString ->
        exists (entry : value) (link : string),
          entries !! i = Some entry
          /\ get "url" entry = Some (Str link)
          /\ link = discussion_url (HNItem.id story)
          /\ is_discussion_page link = true
          /\ forall (env : string -> option string)
                (story_title : option string) (w0 : World),
              no_network_call w0
                (fetchArticleTool env (Input.mk link story_title) w0).
Proof.
  intros category Hknown Hfetch Hvalid. subst category.
  destruct (normal_run _ _ Hfetch) as [w' Hrun].
  rewrite (listNewsTool_run input w stories w' Hknown Hrun).
  destruct (format_stories_valid stories 0 Hvalid)
    as (entries & Hentries & Hlen & _).
  exists entries. unfold list_reply. rewrite Hentries, Hlen.
  split; [reflexivity|]. split; [reflexivity|].
  intros i story Hi Hurl.
  destruct (format_stories_links stories 0 entries Hentries i story Hi)
    as (entry & Hentry & Hlink).
  assert (Hor : or_else (HNItem.url story) (discussion_url (HNItem.id story))
                = discussion_url (HNItem.id story)).
  { destruct Hurl as [-> | ->]; reflexivity. }
  rewrite Hor in Hlink.
  exists entry, (discussion_url (HNItem.id story)).
  split; [exact Hentry|]. split; [exact Hlink|]. split; [reflexivity|].
  split; [apply discussion_url_is_discussion_page|].
  intros env story_title w0.
  apply fetch_article_discussion_no_call. cbn [Input.url].
  apply discussion_url_is_discussion_page.
Qed.

End ListedLinks.

(* ===================================================================== *)
(** * The story formatter                                                 *)
(* ===================================================================== *)

Section FormatStory.

Lemma chars_app (a b : string) :
  list_ascii_of_string (a +:+ b)
  = (list_ascii_of_string a ++ list_ascii_of_string b)%list.
Proof. induction a as [|x a IH]; cbn; [reflexivity | now rewrite IH]. Qed.

Lemma in_chars_here (c : ascii) (b : string) :
  In c (list_ascii_of_string (String c b)).
Proof. left. reflexivity. Qed.

Lemma in_chars_skip (c : ascii) (a b : string) :
  In c (list_ascii_of_string b) -> In c (list_ascii_of_string (a +:+ b)).
Proof. intros Hb. rewrite chars_app. apply in_or_app. now right. Qed.

Lemma includes_char (c : ascii) (p : string) :
  In c (list_ascii_of_string p) -> includes p (String c EmptyString) = true.
Proof.
  induction p as [|x p IH]; cbn [list_ascii_of_string In]; [tauto|].
  intros [-> | Hin].
  - apply includes_prefix. cbn. destruct (ascii_dec c c); [|congruence].
    destruct p; reflexivity.
  - apply includes_cons, IH, Hin.
Qed.

Lemma strip_prefix_sound (p s r : string) :
  strip_prefix p s = Some r -> s = p +:+ r.
Proof.
  revert s. induction p as [|a p IH]; intros s; cbn [strip_prefix].
  - intros [= ->]. reflexivity.
  - destruct s as [|b s]; [discriminate|].
    destruct (Ascii.eqb_spec a b) as [->|]; [|discriminate].
    intros Hs. cbn. f_equal. apply IH, Hs.
Qed.

Lemma strip_one_of_sound (ps : list string) (s r : string) :
  strip_one_of ps s = Some r -> exists p, In p ps /\ s = p +:+ r.
Proof.
  induction ps as [|p ps IH]; cbn [strip_one_of]; [discriminate|].
  destruct (strip_prefix p s) as [r'|] eqn:Hp.
  - intros [= ->]. exists p. split; [now left | apply strip_prefix_sound, Hp].
  - intros Hs. destruct (IH Hs) as (p' & Hin & Heq). exists p'. split; [now right | exact Heq].
Qed.

Lemma trimStart_n_empty (fuel : nat) (s : string) :
  trimStart_n fuel s = EmptyString ->
  forall c, In c (list_ascii_of_string s) -> white_space_byte c = true.
Proof.
  revert s. induction fuel as [|fuel IH]; intros s; cbn [trimStart_n].
  - intros -> c [].
  - destruct (strip_one_of StrWhiteSpaceChar s) as [r|] eqn:Hs.
    + intros Hr c Hc. destruct (strip_one_of_sound _ _ _ Hs) as (p & Hp & ->).
      rewrite chars_app in Hc. apply in_app_or in Hc as [Hc|Hc].
      * unfold white_space_byte. apply existsb_exists. exists p.
        split; [exact Hp | apply includes_char, Hc].
      * apply (IH r Hr c Hc).
    + intros -> c [].
Qed.

Lemma not_all_white_space (c : ascii) (s : string) :
  white_space_byte c = false ->
  In c (list_ascii_of_string s) ->
  all_white_space s = false.
Proof.
  intros Hc Hin. unfold all_white_space.
  destruct (String.eqb_spec (trimStart s) EmptyString) as [Hempty|]; [|reflexivity].
  rewrite (trimStart_n_empty _ _ Hempty c Hin) in Hc. discriminate.
Qed.

Lemma trimEnd_skip (c : ascii) (a s : string) :
  white_space_byte c = false ->
  In c (list_ascii_of_string s) ->
  trimEnd (a +:+ s) = a +:+ trimEnd s.
Proof.
  intros Hc Hin. induction a as [|x a IH]; cbn [String.append]; [reflexivity|].
  cbn [trimEnd].
  rewrite (not_all_white_space c (String x (a +:+ s)) Hc).
  - now rewrite IH.
  - right. apply in_chars_skip, Hin.
Qed.

Lemma trimEnd_keep (c : ascii) (b : string) :
  white_space_byte c = false ->
  trimEnd (String c b) = String c (trimEnd b).
Proof.
  intros Hc. cbn [trimEnd].
  rewrite (not_all_white_space c (String c b) Hc); [reflexivity | now left].
Qed.

Lemma in_chars_cons (c x : ascii) (s : string) :
  In c (list_ascii_of_string s) -> In c (list_ascii_of_string (String x s)).
Proof. intros Hs. now right. Qed.

Lemma trimEnd_cons_skip (c x : ascii) (s : string) :
  white_space_byte c = false ->
  In c (list_ascii_of_string s) ->
  trimEnd (String x s) = String x (trimEnd s).
Proof. intros Hc Hin. apply (trimEnd_skip c (String x EmptyString) s Hc Hin). Qed.

Lemma trimStart_template (rest : string) :
  trimStart (newline +:+ bytes [240; 159; 147; 176]%nat +:+ rest)
  = bytes [240; 159; 147; 176]%nat +:+ rest.
Proof. reflexivity. Qed.

Ltac in_chars :=
  repeat first [ apply in_chars_here | apply in_chars_skip | apply in_chars_cons ].

(** Trims the template around a URL that ends in the byte [c]. *)
Ltac trim_template c Hc :=
  rewrite trimStart_template;
  rewrite ?app_assoc_s; cbn [String.append];
  repeat first [ rewrite (trimEnd_skip c) by (exact Hc || in_chars)
               | rewrite (trimEnd_cons_skip c) by (exact Hc || in_chars) ];
  rewrite (trimEnd_keep c) by exact Hc.

(** X13. [formatStory] trims nothing but the white space of its own
    template: for a story whose URL (or, without one, discussion link) ends
    in a byte that is no white space, the result is exactly the three
    lines with the title, author, points, comments and URL as they are,
    with ["No title"], ["unknown"] and 0 for what is missing. *)
Theorem formatStory_keeps_every_field (story : HNItem.t) (u : string)
    (c : ascii) :
  or_else (HNItem.url story) (discussion_url (HNItem.id story))
  = u +:+ String c EmptyString ->
  white_space_byte c = false ->
  formatStory story = story_text story (u +:+ String c EmptyString).
Proof.
  intros Hurl Hc. unfold formatStory, trim, story_text. rewrite Hurl.
  trim_template c Hc. reflexivity.
Qed.

Lemma numeral_last_digit (d : uint) :
  d <> Nil ->
  exists u c,
    NilEmpty.string_of_uint d = u +:+ String c EmptyString
    /\ white_space_byte c = false.
Proof.
  induction d as [|d IH|d IH|d IH|d IH|d IH|d IH|d IH|d IH|d IH|d IH];
    intros Hd; [congruence | ..];
    cbn [NilEmpty.string_of_uint];
    (destruct (uint_eq_dec d Nil) as [->|Hne];
     [ eexists EmptyString, _; split; reflexivity
     | destruct (IH Hne) as (u & c & -> & Hc);
       eexists (String _ u), c; split; [reflexivity | exact Hc] ]).
Qed.

Lemma toString_last (n : number) :
  exists u c,
    toString n = u +:+ String c EmptyString /\ white_space_byte c = false.
Proof.
  destruct n as [|[|p|p]]; cbn [toString Z.to_int NilZero.string_of_int].
  - exists "Na", "N"%char. split; reflexivity.
  - exists EmptyString, "0"%char. split; reflexivity.
  - pose proof (Unsigned.to_uint_nonnil p) as Hnil.
    destruct (numeral_last_digit _ Hnil) as (u & c & Hu & Hc).
    exists u, c. split; [|exact Hc]. rewrite <- Hu.
    unfold NilZero.string_of_uint.
    destruct (Pos.to_uint p); [congruence | reflexivity ..].
  - pose proof (Unsigned.to_uint_nonnil p) as Hnil.
    destruct (numeral_last_digit _ Hnil) as (u & c & Hu & Hc).
    exists (String "-" u), c. split; [|exact Hc].
    cbn [String.append]. rewrite <- Hu. f_equal.
    unfold NilZero.string_of_uint.
    destruct (Pos.to_uint p); [congruence | reflexivity ..].
Qed.

(** X14. A story without a URL (missing or empty) is formatted with the
    link to its discussion page on the last line, whatever its identifier:
    the three lines end in
    [https://news.ycombinator.com/item?id=] and the identifier. *)
Theorem formatStory_links_story_without_url (story : HNItem.t) :
  HNItem.url story = None \/ HNItem.url story = Some EmptyString ->
  formatStory story = story_text story (discussion_url (HNItem.id story))
  /\ is_discussion_page (discussion_url (HNItem.id story)) = true.
Proof.
  intros Hurl. split; [|apply discussion_url_is_discussion_page].
  destruct (toString_last (HNItem.id story)) as (u & c & Hu & Hc).
  assert (Hlink : or_else (HNItem.url story) (discussion_url (HNItem.id story))
                  = ("https://news.ycombinator.com/item?id=" +:+ u)
                    +:+ String c EmptyString).
  { rewrite app_assoc_s, <- Hu. destruct Hurl as [-> | ->]; reflexivity. }
  unfold formatStory, trim, story_text. rewrite Hlink.
  trim_template c Hc.
  unfold discussion_url. rewrite Hu, ?app_assoc_s. reflexivity.
Qed.

End FormatStory.

(* ===================================================================== *)
(** * The further properties at concrete inputs                           *)
(* ===================================================================== *)

Lemma todays_stories_within_limit_witness :
  let w := answering 200 "[1,2,3]" in
  not_negative (Some (Num 2))
  /\ exists (todays : list HNItem.t) (ids : list number) (w' : World),
      getTodaysTopStories (item_json := one_story) (ids_json := three_ids)
        (Some (Num 2)) w = (Normal todays, w')
      /\ Z.of_nat (length todays) <= as_count (Some (Num 2))
      /\ requests w' = (requests w ++ topstories :: map item_request ids)%list
      /\ Z.of_nat (length ids) <= as_count (Some (Num 2)).
Proof.
  split; [cbn; lia|].
  apply (todays_stories_within_limit (item_json := one_story)
           (ids_json := three_ids)).
  cbn. lia.
Defined.

Lemma fetch_article_reports_scrape_fault_witness :
  let env := env_with_key "fc-key" in
  let input := Input.mk "https://example.com/post" (Some "A post") in
  let w := answering 500 "server error" in
  let req := scrape_request (Input.url input) (FIRECRAWL_API_KEY env) tool_options in
  truthy (FIRECRAWL_API_KEY env) = true
  /\ is_discussion_page (Input.url input) = false
  /\ faulty w req = true
  /\ exists message : string,
      result_of (fetchArticleTool (scrape_json := undecodable) env input w)
      = Normal (JSON_stringify
                  (Obj [("url", Str (Input.url input));
                        ("story_title", optional Str (Input.story_title input));
                        ("error", Str message)]))
      /\ message <> EmptyString
      /\ (forall (response : Response) (B : string),
            server w (requests w) req = Normal response ->
            payload response = Normal B ->
            message = "Firecrawl API error: "
                      +:+ toString (Num (status response)) +:+ " - " +:+ B).
Proof.
  split; [reflexivity|]. split; [reflexivity|]. split; [reflexivity|].
  apply (fetch_article_reports_scrape_fault (scrape_json := undecodable));
    reflexivity.
Defined.


Lemma story_without_url_links_to_guarded_page_witness :
  let input := ListInput.mk "top" (Some (Num 2)) in
  let w := answering 200 "[1,2,3]" in
  let stories := [dropbox_story; dropbox_story] in
  known_category (ListInput.category input)
  /\ result_of (fetch_stories (item_json := one_story) (ids_json := three_ids)
                  (ListInput.category input) (effective_limit input) w)
     = Normal stories
  /\ forallb valid_time stories = true
  /\ exists entries : list value,
      result_of (listNewsTool (item_json := one_story) (ids_json := three_ids)
                   input w)
      = Normal (JSON_stringify_2
                  (Obj [("category", Str (ListInput.category input));
                        ("count", Number (Num (Z.of_nat (length stories))));
                        ("stories", Arr entries)]))
      /\ length entries = length stories
      /\ forall i story,
          stories !! i = Some story ->
          HNItem.url story = None \/ HNItem.url story = Some EmptyString ->
          exists (entry : value) (link : string),
            entries !! i = Some entry
            /\ get "url" entry = Some (Str link)
            /\ link = discussion_url (HNItem.id story)
            /\ is_discussion_page link = true
            /\ forall (env : string -> option string)
                  (story_title : option string) (w0 : World),
                no_network_call w0
                  (fetchArticleTool (scrape_json := undecodable) env
                     (Input.mk link story_title) w0).
Proof.
  split; [left; reflexivity|]. split; [reflexivity|]. split; [reflexivity|].
  apply (story_without_url_links_to_guarded_page (item_json := one_story)
           (ids_json := three_ids) (scrape_json := undecodable)
           (ListInput.mk "top" (Some (Num 2))) (answering 200 "[1,2,3]")
           [dropbox_story; dropbox_story]);
    [left; reflexivity | reflexivity | reflexivity].
Defined.

Lemma list_tool_reports_faulty_feed_as_empty_witness :
  let input := ListInput.mk "best" None in
  known_category (ListInput.category input)
  /\ faulty offline (feed_request (ListInput.category input)) = true
  /\ exists w' : World,
      listNewsTool (item_json := one_story) (ids_json := three_ids) input offline
      = (Normal (JSON_stringify_2
                   (Obj [("category", Str (ListInput.category input));
                         ("count", Number (Num 0));
                         ("stories", Arr [])])), w')
      /\ requests w'
         = (requests offline ++ [feed_request (ListInput.category input)])%list.
Proof.
  split; [right; right; left; reflexivity|]. split; [reflexivity|].
  apply (list_tool_reports_faulty_feed_as_empty (item_json := one_story)
           (ids_json := three_ids));
    [right; right; left; reflexivity | reflexivity].
Defined.

Lemma list_reply_counts_and_ranks_witness :
  let input := ListInput.mk "top" (Some (Num 2)) in
  let w := answering 200 "[1,2,3]" in
  let stories := [dropbox_story; dropbox_story] in
  known_category (ListInput.category input)
  /\ result_of (fetch_stories (item_json := one_story) (ids_json := three_ids)
                  (ListInput.category input) (effective_limit input) w)
     = Normal stories
  /\ forallb valid_time stories = true
  /\ exists entries : list value,
      result_of (listNewsTool (item_json := one_story) (ids_json := three_ids)
                   input w)
      = Normal (JSON_stringify_2
                  (Obj [("category", Str (ListInput.category input));
                        ("count", Number (Num (Z.of_nat (length stories))));
                        ("stories", Arr entries)]))
      /\ length entries = length stories
      /\ forall i entry,
          entries !! i = Some entry ->
          exists story,
            stories !! i = Some story
            /\ get "rank" entry = Some (Number (Num (Z.of_nat i + 1)))
            /\ get "id" entry = Some (Number (HNItem.id story))
            /\ get "title" entry
               = Some (Str (or_else (HNItem.title story) "No title")).
Proof.
  split; [left; reflexivity|]. split; [reflexivity|]. split; [reflexivity|].
  apply (list_reply_counts_and_ranks (item_json := one_story)
           (ids_json := three_ids)
           (ListInput.mk "top" (Some (Num 2))) (answering 200 "[1,2,3]")
           [dropbox_story; dropbox_story]);
    [left; reflexivity | reflexivity | reflexivity].
Defined.

Lemma list_reply_fails_on_invalid_time_witness :
  let input := ListInput.mk "new" (Some (Num 1)) in
  let w := answering 200 "[1,2,3]" in
  let stories :=
    [HNItem.mk (Num 1) ItemType.story "pg" NaN None None None None None None
       None (Some "Untimed") None None] in
  known_category (ListInput.category input)
  /\ result_of (fetch_stories (item_json := timeless_story)
                  (ids_json := three_ids)
                  (ListInput.category input) (effective_limit input) w)
     = Normal stories
  /\ forallb valid_time stories = false
  /\ result_of (listNewsTool (item_json := timeless_story)
                  (ids_json := three_ids) input w)
     = Normal (JSON_stringify (Obj [("error", Str "Invalid time value")])).
Proof.
  split; [right; left; reflexivity|]. split; [reflexivity|].
  split; [reflexivity|].
  apply (list_reply_fails_on_invalid_time (item_json := timeless_story)
           (ids_json := three_ids)
           (ListInput.mk "new" (Some (Num 1))) (answering 200 "[1,2,3]")
           [HNItem.mk (Num 1) ItemType.story "pg" NaN None None None None None
              None None (Some "Untimed") None None]);
    [right; left; reflexivity | reflexivity | reflexivity].
Defined.

Lemma list_tool_negative_limit_is_not_capped_witness :
  let input := ListInput.mk "top" (Some (Num (-1))) in
  let w := answering 200 "[...]" in
  let ids := map (fun n => Num (Z.of_nat n)) (seq 1 60) in
  known_category (ListInput.category input)
  /\ ListInput.limit input = Some (Num (-1))
  /\ -1 < 0
  /\ upstream_feed (ids_json := sixty_ids)
       (feed_request (ListInput.category input)) w = Some ids
  /\ exists (out : string) (w' : World),
      listNewsTool (item_json := one_story) (ids_json := sixty_ids) input w
      = (Normal out, w')
      /\ requests w'
         = (requests w
            ++ feed_request (ListInput.category input)
               :: map item_request (take (length ids - Z.to_nat (- -1)) ids))%list
      /\ length (requests w')
         = (length (requests w) + 1 + (length ids - Z.to_nat (- -1)))%nat.
Proof.
  split; [left; reflexivity|]. split; [reflexivity|]. split; [lia|].
  split; [reflexivity|].
  apply (list_tool_negative_limit_is_not_capped (item_json := one_story)
           (ids_json := sixty_ids));
    [left; reflexivity | reflexivity | lia | reflexivity].
Defined.

Lemma formatStory_keeps_every_field_witness :
  let u := "https://www.getdropbox.com/u/2/screencast.htm" in
  let c := "l"%char in
  or_else (HNItem.url linked_story) (discussion_url (HNItem.id linked_story))
  = u +:+ String c EmptyString
  /\ white_space_byte c = false
  /\ formatStory linked_story
     = story_text linked_story (u +:+ String c EmptyString).
Proof.
  split; [reflexivity|]. split; [reflexivity|].
  apply formatStory_keeps_every_field; reflexivity.
Defined.

Lemma formatStory_links_story_without_url_witness :
  (HNItem.url dropbox_story = None \/ HNItem.url dropbox_story = Some EmptyString)
  /\ formatStory dropbox_story
     = story_text dropbox_story (discussion_url (HNItem.id dropbox_story))
  /\ is_discussion_page (discussion_url (HNItem.id dropbox_story)) = true.
Proof.
  split; [left; reflexivity|].
  apply formatStory_links_story_without_url. left; reflexivity.
Defined.
